(** * PubMed paper fetcher: a shallow embedding of [name.py]

    The script issues two HTTP GET requests against the NCBI E-utilities
    (a term search, then a batched summary lookup), reshapes the JSON
    answers into a list of six-key dictionaries and either prints them
    or writes them as CSV.

    The embedding follows the script function by function:
    - Python values that come out of [response.json()] are the inductive
      [value]; a Python [dict] is an insertion-ordered association list;
    - exceptions are the constructors of [exn], and every function of
      the script lives in the monad [M], which threads the process state
      ([world]) and propagates the first exception raised;
    - the network is an oracle of the [world] (request to outcome), and
      every request that is issued is recorded in [sent];
    - [csv.DictWriter] with the default [excel] dialect is modelled
      after the writer of CPython's [_csv] module, and [csv.reader]
      after its state machine, so that written files can be read back;
    - a Python [str] is the [string] of the UTF-8 bytes of its code
      points (a lone surrogate in its three-byte form): a character is
      a byte that continues no sequence, with the continuation bytes
      behind it ([chars], [char_count]);
    - a file holds the text written to it; whether the codec of the
      locale can encode a text is a parameter ([encodable]), and a
      write of text it cannot encode raises;
    - runs start from the parsed command line ([args]). *)

From Stdlib Require Import PrimFloat.
From stdpp Require Import base option list gmap strings.
From Stdlib Require Import ZArith String Ascii Lia.

Open Scope string_scope.
Open Scope Z_scope.

Set Warnings "-register-all".

(** ** Python values *)

(** What [json.loads] can return. Objects are Python dicts, kept as
    association lists in insertion order; lookup takes the first
    binding of a key. *)
Inductive value : Type :=
  | JNull
  | JBool (b : bool)
  | JInt (z : Z)
  | JFloat (f : float)
  | JStr (s : string)
  | JArr (xs : list value)
  | JObj (kvs : list (string * value)).

Abbreviation dict := (list (string * value)).

(** The exceptions the script can meet. All of them derive from
    [Exception]. *)
Inductive exn : Type :=
  | ConnectionError
  | HTTPError (status : Z)
  | JSONDecodeError
  | AttributeError
  | TypeError
  | ValueError
  | OSError
  | UnicodeEncodeError.

Inductive result (A : Type) : Type :=
  | Ok (a : A)
  | Raise (e : exn).
Arguments Ok {A} a.
Arguments Raise {A} e.

(** [bool(v)]: Python truthiness. *)
Definition truthy (v : value) : bool :=
  match v with
  | JNull => false
  | JBool b => b
  | JInt z => negb (z =? 0)
  | JFloat f => negb (PrimFloat.eqb f 0%float)
  | JStr s => negb (String.eqb s "")
  | JArr xs => match xs with [] => false | _ => true end
  | JObj kvs => match kvs with [] => false | _ => true end
  end.

(** [d[k]] when present: first binding of [k]. *)
Fixpoint dict_lookup (k : string) (d : dict) : option value :=
  match d with
  | [] => None
  | (k', v) :: d' => if String.eqb k k' then Some v else dict_lookup k d'
  end.

Definition dict_keys (d : dict) : list string := map fst d.

(** [d.get(k, default)] on a dict. *)
Definition dict_get (d : dict) (k : string) (default : value) : value :=
  match dict_lookup k d with
  | Some v => v
  | None => default
  end.

(** [v.get(k, default)] on an arbitrary value: only dicts have [get]. *)
Definition py_get (v : value) (k : string) (default : value) : result value :=
  match v with
  | JObj d => Ok (dict_get d k default)
  | _ => Raise AttributeError
  end.

(** [v.get(key, default)] where the key is itself a value, as in the
    loop of [fetch_papers]. Lists and dicts are unhashable; a hashable
    key that is not a string is never a key of a JSON object. *)
Definition py_get_key (v : value) (key : value) (default : value)
  : result value :=
  match v with
  | JObj d =>
      match key with
      | JStr k => Ok (dict_get d k default)
      | JArr _ | JObj _ => Raise TypeError
      | _ => Ok default
      end
  | _ => Raise AttributeError
  end.

(** A byte that continues a UTF-8 sequence: its two top bits are 1
    and 0. *)
Definition is_continuation (c : ascii) : bool :=
  match c with
  | Ascii _ _ _ _ _ _ false true => true
  | _ => false
  end.


(** The characters from [s] on, [cur] being the bytes of the character
    that is being read. *)
Fixpoint chars_from (cur : string) (s : string) : list string :=
  match s with
  | EmptyString => if String.eqb cur "" then [] else [cur]
  | String c s' =>
      if is_continuation c
      then chars_from (cur ++ String c EmptyString) s'
      else
        (if String.eqb cur "" then [] else [cur])
        ++ chars_from (String c EmptyString) s'
  end.

(** The one-character strings of a string ([iter(s)]): Python iterates
    a [str] code point by code point. *)
Definition chars (s : string) : list string := chars_from "" s.

(** [iter(v)]: the items a [for] loop or [str.join] sees. *)
Definition py_iter (v : value) : result (list value) :=
  match v with
  | JArr xs => Ok xs
  | JStr s => Ok (map JStr (chars s))
  | JObj kvs => Ok (map JStr (dict_keys kvs))
  | _ => Raise TypeError
  end.

(** [sep.join] of strings. *)
Fixpoint join (sep : string) (ss : list string) : string :=
  match ss with
  | [] => ""
  | [s] => s
  | s :: ss' => s ++ sep ++ join sep ss'
  end.

(** Every item handed to [str.join] must be a [str]. *)
Fixpoint all_strs (vs : list value) : result (list string) :=
  match vs with
  | [] => Ok []
  | JStr s :: vs' =>
      match all_strs vs' with
      | Ok ss => Ok (s :: ss)
      | Raise e => Raise e
      end
  | _ :: _ => Raise TypeError
  end.

(** [sep.join(v)]. *)
Definition py_join (sep : string) (v : value) : result string :=
  match py_iter v with
  | Ok vs =>
      match all_strs vs with
      | Ok ss => Ok (join sep ss)
      | Raise e => Raise e
      end
  | Raise e => Raise e
  end.

(** ** The process state *)

Record request : Type := Request {
  req_url : string;
  req_params : dict
}.

Record response : Type := Response {
  status_code : Z;
  (** the decoded body; [None] when the body is not valid JSON *)
  body : option value
}.

(** Logging levels of the [logging] module. *)
Definition NOTSET : Z := 0.
Definition DEBUG : Z := 10.
Definition INFO : Z := 20.
Definition ERROR : Z := 40.

(** The argument substituted for [%s] in a log call. *)
Inductive log_arg : Type :=
  | NoArg
  | StrArg (s : string)
  | ExnArg (e : exn).

Record log_record : Type := LogRecord {
  log_level : Z;
  log_format : string;
  log_argument : log_arg
}.

Record world : Type := World {
  (** the network: [None] is a failed connection *)
  net : request -> option response;
  (** whether opening the path for writing succeeds *)
  writable : string -> bool;
  (** requests issued so far, oldest first *)
  sent : list request;
  (** level of the root logger, set by [logging.basicConfig] *)
  root_level : Z;
  (** level of the module's [logger] *)
  logger_level : Z;
  (** records emitted on the log stream, oldest first *)
  log_stream : list log_record;
  (** dictionaries printed on standard output, oldest first *)
  stdout : list dict;
  (** file contents by path *)
  files : gmap string string
}.

(** ** The monad of the script *)

Definition M (A : Type) : Type := world -> result A * world.

Definition ret {A} (a : A) : M A := fun w => (Ok a, w).

Definition bind {A B} (c : M A) (k : A -> M B) : M B :=
  fun w =>
    match c w with
    | (Ok a, w') => k a w'
    | (Raise e, w') => (Raise e, w')
    end.

Definition raise {A} (e : exn) : M A := fun w => (Raise e, w).

(** [try: c  except Exception as e: h e] *)
Definition try_except {A} (c : M A) (h : exn -> M A) : M A :=
  fun w =>
    match c w with
    | (Ok a, w') => (Ok a, w')
    | (Raise e, w') => h e w'
    end.

Definition lift {A} (r : result A) : M A := fun w => (r, w).

Notation "x <- c ;; k" := (bind c (fun x => k))
  (at level 62, c at next level, right associativity).
Notation "c ;;; k" := (bind c (fun _ => k))
  (at level 62, right associativity).

(** [for x in xs: f x] *)
Fixpoint for_each {A} (xs : list A) (f : A -> M unit) : M unit :=
  match xs with
  | [] => ret tt
  | x :: xs' => f x ;;; for_each xs' f
  end.

(** ** Primitive effects *)

(** The state after one more request has been issued. *)
Definition with_request (r : request) (w : world) : world :=
  World (net w) (writable w) (sent w ++ [r]) (root_level w)
    (logger_level w) (log_stream w) (stdout w) (files w).

(** The state after the level of [logger] has been set. *)
Definition with_logger_level (level : Z) (w : world) : world :=
  World (net w) (writable w) (sent w) (root_level w)
    level (log_stream w) (stdout w) (files w).

(** The state after one more record has been emitted on the log. *)
Definition with_log (r : log_record) (w : world) : world :=
  World (net w) (writable w) (sent w) (root_level w)
    (logger_level w) (log_stream w ++ [r]) (stdout w) (files w).

(** The state after one more dictionary has been printed. *)
Definition with_print (d : dict) (w : world) : world :=
  World (net w) (writable w) (sent w) (root_level w)
    (logger_level w) (log_stream w) (stdout w ++ [d]) (files w).

(** The state with another file system. *)
Definition with_files (fs : gmap string string) (w : world) : world :=
  World (net w) (writable w) (sent w) (root_level w)
    (logger_level w) (log_stream w) (stdout w) fs.

(** [requests.get(url, params=params)] *)
Definition requests_get (url : string) (params : dict) : M response :=
  fun w =>
    let r := Request url params in
    match net w r with
    | Some resp => (Ok resp, with_request r w)
    | None => (Raise ConnectionError, with_request r w)
    end.

(** [response.raise_for_status()]: client and server error codes raise. *)
Definition is_error_status (status : Z) : bool :=
  (400 <=? status) && (status <? 600).

Definition raise_for_status (r : response) : M unit :=
  if is_error_status (status_code r)
  then raise (HTTPError (status_code r))
  else ret tt.

(** [response.json()] *)
Definition response_json (r : response) : M value :=
  match body r with
  | Some v => ret v
  | None => raise JSONDecodeError
  end.

(** [logger.setLevel(level)] *)
Definition setLevel (level : Z) : M unit :=
  fun w => (Ok tt, with_logger_level level w).

(** [logger.getEffectiveLevel()]: the logger's own level, or the root's
    when the logger has none. *)
Definition effective_level (w : world) : Z :=
  if logger_level w =? NOTSET then root_level w else logger_level w.

(** [logger.log(level, fmt, arg)]: emitted when the level is enabled. *)
Definition logger_log (level : Z) (fmt : string) (arg : log_arg) : M unit :=
  fun w =>
    if effective_level w <=? level
    then (Ok tt, with_log (LogRecord level fmt arg) w)
    else (Ok tt, w).

Definition logger_info := logger_log INFO.
Definition logger_error := logger_log ERROR.

(** [print(paper)] *)
Definition print (paper : dict) : M unit :=
  fun w => (Ok tt, with_print paper w).

(** [open] of [filename] for writing: truncates the file. *)
Definition open_w (filename : string) : M unit :=
  fun w =>
    if writable w filename
    then (Ok tt, with_files (<[filename := ""]> (files w)) w)
    else (Raise OSError, w).

(** [csvfile.write(text)] on the file opened at [filename]. The file
    is a text file with the codec of the locale and strict error
    handling: text the codec cannot encode raises, and nothing of it is
    written; what was written before stays. *)
Definition file_write (encodable : string -> bool) (filename : string)
    (text : string) : M unit :=
  fun w =>
    if encodable text
    then
      (Ok tt,
       with_files
         (<[filename := default "" (files w !! filename) ++ text]> (files w))
         w)
    else (Raise UnicodeEncodeError, w).

(** ** [fetch_papers] *)

Definition base_url : string :=
  "https://eutils.ncbi.nlm.nih.gov/entrez/eutils/esearch.fcgi".
Definition details_url : string :=
  "https://eutils.ncbi.nlm.nih.gov/entrez/eutils/esummary.fcgi".

Definition search_params (query : string) : dict :=
  [("db", JStr "pubmed"); ("term", JStr query);
   ("retmax", JInt 10); ("retmode", JStr "json")].

Definition details_params (joined : string) : dict :=
  [("db", JStr "pubmed"); ("id", JStr joined); ("retmode", JStr "json")].

(** The dict literal appended to [papers]. *)
Definition paper_record (id title pubdate : value) : dict :=
  [("PubmedID", id);
   ("Title", title);
   ("Publication Date", pubdate);
   ("Non-academic Author(s)", JStr "Heuristic not implemented");
   ("Company Affiliation(s)", JStr "Heuristic not implemented");
   ("Corresponding Author Email", JStr "Not available")].

(** One iteration of the loop body, returning the appended record. *)
Definition build_paper (details_data : value) (id : value) : result dict :=
  match py_get details_data "result" (JObj []) with
  | Raise e => Raise e
  | Ok res =>
      match py_get_key res id (JObj []) with
      | Raise e => Raise e
      | Ok summary =>
          match py_get summary "title" (JStr "") with
          | Raise e => Raise e
          | Ok title =>
              match py_get summary "pubdate" (JStr "") with
              | Raise e => Raise e
              | Ok pubdate => Ok (paper_record id title pubdate)
              end
          end
      end
  end.

(** The loop [for id in ids: papers.append(...)], with [papers] as
    accumulator. *)
Fixpoint build_papers (details_data : value) (ids : list value)
    (papers : list dict) : result (list dict) :=
  match ids with
  | [] => Ok papers
  | id :: ids' =>
      match build_paper details_data id with
      | Raise e => Raise e
      | Ok p => build_papers details_data ids' (papers ++ [p])
      end
  end.

Definition fetch_papers (query : string) : M (list dict) :=
  response <- requests_get base_url (search_params query) ;;
  raise_for_status response ;;;
  search_data <- response_json response ;;
  esearchresult <- lift (py_get search_data "esearchresult" (JObj [])) ;;
  ids <- lift (py_get esearchresult "idlist" (JArr [])) ;;
  if negb (truthy ids) then ret []
  else
    joined <- lift (py_join "," ids) ;;
    details_response <- requests_get details_url (details_params joined) ;;
    raise_for_status details_response ;;;
    details_data <- response_json details_response ;;
    items <- lift (py_iter ids) ;;
    lift (build_papers details_data items []).

(** ** The CSV writer ([csv.writer], dialect [excel])

    The delimiter is the comma, the quote character is the double
    quote, an embedded quote is written twice, quoting is minimal and
    the line terminator is CR LF. *)

Definition delimiter : ascii := ","%char.
Definition quotechar : ascii := "034"%char.
Definition CR : ascii := "013"%char.
Definition LF : ascii := "010"%char.
Definition lineterminator : string := String CR (String LF EmptyString).

(** The characters that force a field into quotes under minimal
    quoting: the delimiter, the quote character and the characters of
    the line terminator. *)
Definition special (c : ascii) : bool :=
  Ascii.eqb c delimiter || Ascii.eqb c quotechar
  || Ascii.eqb c CR || Ascii.eqb c LF.

Fixpoint needs_quotes (s : string) : bool :=
  match s with
  | EmptyString => false
  | String c s' => special c || needs_quotes s'
  end.

(** Copy of the field with every quote character doubled. *)
Fixpoint double_quotes (s : string) : string :=
  match s with
  | EmptyString => EmptyString
  | String c s' =>
      if Ascii.eqb c quotechar
      then String quotechar (String quotechar (double_quotes s'))
      else String c (double_quotes s')
  end.

(** [join_append]: the text of one field inside a record. *)
Definition join_append (field : string) : string :=
  if needs_quotes field
  then String quotechar (double_quotes field ++ String quotechar EmptyString)
  else field.

(** [writer.writerow(fields)]: the line handed to [csvfile.write]. A
    record that would be empty although it has a field is written as an
    empty quoted field. *)
Definition writerow (fields : list string) : string :=
  let rec := join (String delimiter EmptyString) (map join_append fields) in
  match fields with
  | [] => rec ++ lineterminator
  | _ :: _ =>
      if String.eqb rec ""
      then String quotechar (String quotechar lineterminator)
      else rec ++ lineterminator
  end.

(** ** [save_to_csv], [main] and the script *)

Definition fieldnames : list string :=
  ["PubmedID"; "Title"; "Publication Date";
   "Non-academic Author(s)"; "Company Affiliation(s)";
   "Corresponding Author Email"].

Definition mem (k : string) (ks : list string) : bool :=
  existsb (String.eqb k) ks.

(** [DictWriter._dict_to_list] with the defaults of [DictWriter]: a
    key outside [fieldnames] raises, a missing key gives the empty
    string. *)
Definition dict_to_list (rowdict : dict) : result (list value) :=
  match List.filter (fun k => negb (mem k fieldnames)) (dict_keys rowdict) with
  | [] => Ok (map (fun key => dict_get rowdict key (JStr "")) fieldnames)
  | _ :: _ => Raise ValueError
  end.

Record args : Type := Args {
  query : string;
  file : option string;
  debug : bool
}.

Section Script.

(** Python's [str] on the values that are neither [str] nor [None]
    (numbers, booleans, lists, dicts). *)
Variable py_str : value -> string.

(** Whether the codec of the locale, with which [open] writes a text
    file, can encode a text. *)
Variable encodable : string -> bool.

(** The text the writer stores for a field value. *)
Definition field_text (v : value) : string :=
  match v with
  | JStr s => s
  | JNull => ""
  | _ => py_str v
  end.

(** [DictWriter.writeheader] *)
Definition writeheader (filename : string) : M unit :=
  file_write encodable filename (writerow fieldnames).

(** [DictWriter.writerows]: rows are converted and written one after
    the other; a row that cannot be converted stops the loop. *)
Fixpoint writerows (filename : string) (rowdicts : list dict) : M unit :=
  match rowdicts with
  | [] => ret tt
  | rowdict :: rest =>
      row <- lift (dict_to_list rowdict) ;;
      file_write encodable filename (writerow (map field_text row)) ;;;
      writerows filename rest
  end.

Definition save_to_csv (papers : list dict) (filename : string) : M unit :=
  open_w filename ;;;
  writeheader filename ;;;
  writerows filename papers.

(** The body of the [try] block of [main]. *)
Definition main_try (a : args) : M unit :=
  logger_info "Fetching papers for query: %s" (StrArg (query a)) ;;;
  papers <- fetch_papers (query a) ;;
  match papers with
  | [] => logger_info "No papers found for the given query." NoArg
  | _ :: _ =>
      match file a with
      | Some f =>
          if negb (String.eqb f "")
          then
            save_to_csv papers f ;;;
            logger_info "Results saved to %s" (StrArg f)
          else for_each papers print
      | None => for_each papers print
      end
  end.

(** [main], from the parsed command line on. *)
Definition main (a : args) : M unit :=
  (if debug a then setLevel DEBUG else ret tt) ;;;
  try_except (main_try a)
    (fun e => logger_error "An error occurred: %s" (ExnArg e)).

(** The state the module-level code sets up before [main] runs:
    [logging.basicConfig(level=logging.INFO)] and a fresh [logger]. *)
Definition initial_world (network : request -> option response)
    (can_write : string -> bool) (disk : gmap string string) : world :=
  World network can_write [] INFO NOTSET [] [] disk.

(** The whole script: exit status and final state. An exception that
    leaves [main] would end the process with status 1. *)
Definition script (a : args) (network : request -> option response)
    (can_write : string -> bool) (disk : gmap string string)
  : Z * world :=
  match main a (initial_world network can_write disk) with
  | (Ok _, w) => (0, w)
  | (Raise _, w) => (1, w)
  end.

End Script.

(** ** Reading a CSV file back ([csv.reader], dialect [excel])

    The file is opened with universal newlines and no translation, so
    iterating it yields lines that end after LF, after CR LF, or after
    a CR that no LF follows, with the ending kept. The reader feeds
    every character of a line, then an end-of-line mark, to the state
    machine of [parse_process_char]; a record is complete when the
    machine is back in [START_RECORD] at the end of a line. A field
    may hold [field_limit] characters, the default of
    [csv.field_size_limit]; one character more is an error. *)






















(** ** Vocabulary of the statements *)

Definition search_request (query : string) : request :=
  Request base_url (search_params query).

Definition details_request (ids : list string) : request :=
  Request details_url (details_params (join "," ids)).

(** The request is answered with a status that is no error and a body
    that decodes to [v]. *)
Definition answers (w : world) (r : request) (v : value) : Prop :=
  exists st, net w r = Some (Response st (Some v))
             /\ is_error_status st = false.

(** The search response carries the list [ids] of identifiers at the
    path esearchresult.idlist. *)
Definition has_idlist (search_data : value) (ids : list string) : Prop :=
  exists d es,
    search_data = JObj d
    /\ dict_lookup "esearchresult" d = Some (JObj es)
    /\ dict_lookup "idlist" es = Some (JArr (map JStr ids)).

(** The search response is a mapping with no identifiers: the key
    esearchresult is missing, or it is a mapping whose key idlist is
    missing or holds an empty (falsy) value, such as the empty list. *)
Definition no_identifiers (search_data : value) : Prop :=
  exists d,
    search_data = JObj d
    /\ (dict_lookup "esearchresult" d = None
        \/ exists es,
             dict_lookup "esearchresult" d = Some (JObj es)
             /\ (dict_lookup "idlist" es = None
                 \/ exists v, dict_lookup "idlist" es = Some v
                              /\ truthy v = false)).

(** The summary response is a mapping, its entry result (when present)
    is a mapping, and so is the entry of every identifier (when
    present). *)
Definition summaries_shaped (details_data : value) (ids : list string)
  : Prop :=
  exists d r,
    details_data = JObj d
    /\ dict_get d "result" (JObj []) = JObj r
    /\ forall id, In id ids -> exists s, dict_get r id (JObj []) = JObj s.

(** A Paper Record: a mapping with exactly the six field names as
    keys. *)
Definition is_paper_record (d : dict) : Prop :=
  Permutation (dict_keys d) fieldnames.

(** The six texts a CSV row stores for a record. *)
Definition row_texts (py_str : value -> string) (d : dict) : list string :=
  map (fun key => field_text py_str (dict_get d key (JStr ""))) fieldnames.

(** The lines [writerows] writes for a sequence of records. *)
Fixpoint rows_text (rows : list (list string)) : string :=
  match rows with
  | [] => ""
  | row :: rest => writerow row ++ rows_text rest
  end.

(** The header line of the output file. *)
Definition header_line : string :=
  "PubmedID,Title,Publication Date,Non-academic Author(s),"
  ++ "Company Affiliation(s),Corresponding Author Email"
  ++ lineterminator.

(** The state [main] hands to its [try] block. *)
Definition configured (a : args) (w : world) : world :=
  if debug a then with_logger_level DEBUG w else w.

(** Messages of level [INFO] and above are emitted. *)
Definition info_enabled (w : world) : Prop := effective_level w <= INFO.

(** Two states that differ at most in the level of [logger], both
    emitting messages of level [INFO] and above. *)
Definition same_but_level (w1 w2 : world) : Prop :=
  with_logger_level NOTSET w1 = with_logger_level NOTSET w2
  /\ info_enabled w1 /\ info_enabled w2.

(** A computation that cannot tell such states apart. *)
Definition level_blind {A} (c : M A) : Prop :=
  forall w1 w2,
    same_but_level w1 w2 ->
    fst (c w1) = fst (c w2) /\ same_but_level (snd (c w1)) (snd (c w2)).

(** ** Sample runs *)

Definition sample_search : value :=
  JObj [("esearchresult", JObj [("idlist", JArr [JStr "111"; JStr "222"])])].

Definition sample_summary : value :=
  JObj [("result",
         JObj [("uids", JArr [JStr "111"; JStr "222"]);
               ("111", JObj [("title", JStr "Tumours, a review");
                             ("pubdate", JStr "2020 Jan")]);
               ("222", JObj [("pubdate", JStr "2021")])])].

(** The search answers with two identifiers, the summary lookup with
    their summaries. *)
Definition sample_net (r : request) : option response :=
  if String.eqb (req_url r) base_url
  then Some (Response 200 (Some sample_search))
  else Some (Response 200 (Some sample_summary)).

(** The search finds nothing. *)
Definition empty_net (r : request) : option response :=
  Some (Response 200 (Some (JObj [("esearchresult",
                                   JObj [("idlist", JArr [])])]))).

(** The search is refused. *)
Definition failing_net (r : request) : option response :=
  Some (Response 503 None).

(** The server ignores the requested maximum and lists eleven
    identifiers; the summary lookup has nothing on them. *)
Definition eleven_ids : list string :=
  ["1"; "2"; "3"; "4"; "5"; "6"; "7"; "8"; "9"; "10"; "11"].

Definition eleven_net (r : request) : option response :=
  if String.eqb (req_url r) base_url
  then Some (Response 200
               (Some (JObj [("esearchresult",
                             JObj [("idlist", JArr (map JStr eleven_ids))])])))
  else Some (Response 200 (Some (JObj []))).

(** The records of the sample run. *)
Definition sample_papers : list dict :=
  [paper_record (JStr "111") (JStr "Tumours, a review") (JStr "2020 Jan");
   paper_record (JStr "222") (JStr "") (JStr "2021")].

Definition all_writable (path : string) : bool := true.

Definition sample_world : world := initial_world sample_net all_writable ∅.

Definition sample_str (v : value) : string := "?".

(** The codec of a locale that knows ASCII only. *)
Fixpoint sample_codec (text : string) : bool :=
  match text with
  | EmptyString => true
  | String (Ascii _ _ _ _ _ _ _ b7) rest => negb b7 && sample_codec rest
  end.

(** ** Further vocabulary *)


(** What [writerows] does, as a function of the records alone: how it
    ends, and the rows it has written by then. *)
Fixpoint rows_written (py_str : value -> string)
    (encodable : string -> bool) (rowdicts : list dict)
  : result unit * list (list string) :=
  match rowdicts with
  | [] => (Ok tt, [])
  | rowdict :: rest =>
      match dict_to_list rowdict with
      | Raise e => (Raise e, [])
      | Ok row =>
          if encodable (writerow (map (field_text py_str) row))
          then (fst (rows_written py_str encodable rest),
                map (field_text py_str) row
                :: snd (rows_written py_str encodable rest))
          else (Raise UnicodeEncodeError, [])
      end
  end.

(** The second half of [fetch_papers], entered when the identifier
    value [ids] is truthy. *)
Definition fetch_details (ids : value) : M (list dict) :=
  joined <- lift (py_join "," ids) ;;
  details_response <- requests_get details_url (details_params joined) ;;
  raise_for_status details_response ;;;
  details_data <- response_json details_response ;;
  items <- lift (py_iter ids) ;;
  lift (build_papers details_data items []).

(** The value [fetch_papers] reads at esearchresult.idlist, with the
    defaults of the two [get] calls. *)
Definition idlist_value (search_data : value) : result value :=
  match py_get search_data "esearchresult" (JObj []) with
  | Ok es => py_get es "idlist" (JArr [])
  | Raise e => Raise e
  end.

(** The search response holds the value [v] at esearchresult.idlist. *)
Definition holds_idlist (search_data v : value) : Prop :=
  exists d es,
    search_data = JObj d
    /\ dict_lookup "esearchresult" d = Some (JObj es)
    /\ dict_lookup "idlist" es = Some v.

(** Every key of the mapping is a field name. *)
Definition keys_allowed (d : dict) : Prop :=
  forall k, In k (dict_keys d) -> In k fieldnames.

(** The mapping has a key that is no field name. *)
Definition has_extra_key (d : dict) : Prop :=
  exists k, In k (dict_keys d) /\ ~ In k fieldnames.

(** Two states that differ at most in the content of the file [path]. *)
Definition same_but_file (path : string) (w w' : world) : Prop :=
  net w' = net w /\ writable w' = writable w /\ sent w' = sent w
  /\ root_level w' = root_level w /\ logger_level w' = logger_level w
  /\ log_stream w' = log_stream w /\ stdout w' = stdout w
  /\ forall other, other <> path -> files w' !! other = files w !! other.

(** The state after the dictionaries have been printed, one after the
    other. *)
Definition with_prints (ds : list dict) (w : world) : world :=
  World (net w) (writable w) (sent w) (root_level w)
    (logger_level w) (log_stream w) (stdout w ++ ds) (files w).

Definition fetching_record (q : string) : log_record :=
  LogRecord INFO "Fetching papers for query: %s" (StrArg q).
Definition no_papers_record : log_record :=
  LogRecord INFO "No papers found for the given query." NoArg.
Definition saved_record (f : string) : log_record :=
  LogRecord INFO "Results saved to %s" (StrArg f).
Definition error_record (e : exn) : log_record :=
  LogRecord ERROR "An error occurred: %s" (ExnArg e).

(** The ways a run of the script can end, [w2] being the state after
    [fetch_papers] and [w'] the final state. *)
Inductive outcome (py_str : value -> string)
    (encodable : string -> bool) (a : args) (w2 : world)
    (fetched : result (list dict)) (w' : world) : Prop :=
  | fetch_failed (e : exn) :
      fetched = Raise e ->
      w' = with_log (error_record e) w2 ->
      outcome py_str encodable a w2 fetched w'
  | nothing_found :
      fetched = Ok [] ->
      w' = with_log no_papers_record w2 ->
      outcome py_str encodable a w2 fetched w'
  | printed (papers : list dict) :
      fetched = Ok papers -> papers <> [] ->
      file a = None \/ file a = Some "" ->
      w' = with_prints papers w2 ->
      outcome py_str encodable a w2 fetched w'
  | saved (papers : list dict) (f : string) (w3 : world) :
      fetched = Ok papers -> papers <> [] ->
      file a = Some f -> f <> "" ->
      save_to_csv py_str encodable papers f w2 = (Ok tt, w3) ->
      w' = with_log (saved_record f) w3 ->
      outcome py_str encodable a w2 fetched w'
  | save_failed (papers : list dict) (f : string) (w3 : world) (e : exn) :
      fetched = Ok papers -> papers <> [] ->
      file a = Some f -> f <> "" ->
      save_to_csv py_str encodable papers f w2 = (Raise e, w3) ->
      w' = with_log (error_record e) w3 ->
      outcome py_str encodable a w2 fetched w'.


(** ** More sample runs *)

(** No connection. *)
Definition offline_net (r : request) : option response := None.

(** The search lists a number among the identifiers. *)
Definition mixed_ids_search : value :=
  JObj [("esearchresult", JObj [("idlist", JArr [JStr "1"; JInt 2])])].

Definition mixed_ids_net (r : request) : option response :=
  Some (Response 200 (Some mixed_ids_search)).

(** The search answers, the summary lookup is refused. *)
Definition summary_down_net (r : request) : option response :=
  if String.eqb (req_url r) base_url
  then Some (Response 200 (Some sample_search))
  else Some (Response 500 None).

(** The summary of the second identifier is a string. *)
Definition bad_entry_result : dict :=
  [("111", JObj [("title", JStr "Fine")]); ("222", JStr "oops")].

Definition bad_entry_net (r : request) : option response :=
  if String.eqb (req_url r) base_url
  then Some (Response 200 (Some sample_search))
  else Some (Response 200 (Some (JObj [("result", JObj bad_entry_result)]))).

(** The summary lookup answers with an empty mapping. *)
Definition no_summary_net (r : request) : option response :=
  if String.eqb (req_url r) base_url
  then Some (Response 200 (Some sample_search))
  else Some (Response 200 (Some (JObj []))).

(** The search gives a string where the list of identifiers belongs:
    the letter e with an acute accent (two bytes), then the digit 1. *)
Definition string_ids_search : value :=
  JObj [("esearchresult",
         JObj [("idlist", JStr (String "195" (String "169" "1")))])].

Definition string_ids_net (r : request) : option response :=
  if String.eqb (req_url r) base_url
  then Some (Response 200 (Some string_ids_search))
  else Some (Response 200 (Some (JObj []))).



Definition read_only (path : string) : bool := false.

(** The letter e with an acute accent, a character of two bytes. *)
Definition accented : string := String "195" (String "169" EmptyString).

(** A record with that letter as title: a locale that knows ASCII only
    cannot encode its line. *)
Definition accented_record : dict :=
  paper_record (JStr "7") (JStr accented) (JStr "").





(** The search answers with two identifiers; the summary of the second
    has the accented letter as title. *)
Definition accented_net (r : request) : option response :=
  if String.eqb (req_url r) base_url
  then Some (Response 200
               (Some (JObj [("esearchresult",
                             JObj [("idlist", JArr [JStr "111"; JStr "7"])])])))
  else Some (Response 200
               (Some (JObj [("result",
                             JObj [("111", JObj [("title", JStr "Tumours");
                                                 ("pubdate", JStr "2020")]);
                                   ("7", JObj [("title", JStr accented);
                                               ("pubdate", JStr "")])])]))).

(** * Properties of [fetch_papers] *)

Lemma all_strs_map_JStr (ids : list string) :
  all_strs (map JStr ids) = Ok ids.
Proof.
  induction ids as [|id ids IH]; simpl; [reflexivity|].
  now rewrite IH.
Qed.

Lemma py_join_strs (sep : string) (ids : list string) :
  py_join sep (JArr (map JStr ids)) = Ok (join sep ids).
Proof. unfold py_join; simpl. now rewrite all_strs_map_JStr. Qed.

(** Every record the loop body appends is the six-key literal. *)
Lemma build_paper_shape (dd id : value) (p : dict) :
  build_paper dd id = Ok p ->
  exists title pubdate, p = paper_record id title pubdate.
Proof.
  unfold build_paper. intros H.
  destruct (py_get dd "result" (JObj [])) as [res|]; [|discriminate].
  destruct (py_get_key res id (JObj [])) as [summary|]; [|discriminate].
  destruct (py_get summary "title" (JStr "")) as [title|]; [|discriminate].
  destruct (py_get summary "pubdate" (JStr "")) as [pubdate|]; [|discriminate].
  injection H as <-. eauto.
Qed.

(** What the loop body does for an identifier that is a string. *)
Lemma build_paper_str (dd : value) (id : string) (p : dict) :
  build_paper dd (JStr id) = Ok p <->
  exists d r s,
    dd = JObj d
    /\ dict_get d "result" (JObj []) = JObj r
    /\ dict_get r id (JObj []) = JObj s
    /\ p = paper_record (JStr id) (dict_get s "title" (JStr ""))
             (dict_get s "pubdate" (JStr "")).
Proof.
  unfold build_paper. split.
  - intros H. destruct dd as [| | | | | |d]; try discriminate. simpl in H.
    destruct (dict_get d "result" (JObj [])) as [| | | | | |r] eqn:Er;
      try discriminate.
    simpl in H.
    destruct (dict_get r id (JObj [])) as [| | | | | |s] eqn:Es;
      try discriminate.
    simpl in H. injection H as <-. exists d, r, s. auto.
  - intros (d & r & s & -> & Er & Es & ->). simpl. rewrite Er. simpl.
    rewrite Es. reflexivity.
Qed.

(** The loop appends one record per item, in order. *)
Lemma build_papers_inv (dd : value) (ids : list value) :
  forall acc papers,
    build_papers dd ids acc = Ok papers ->
    exists new,
      papers = (acc ++ new)%list
      /\ Forall2 (fun id p => build_paper dd id = Ok p) ids new.
Proof.
  induction ids as [|id ids IH]; simpl; intros acc papers H.
  - injection H as <-. exists []. split; [now rewrite app_nil_r|constructor].
  - destruct (build_paper dd id) as [p|] eqn:Ep; [|discriminate].
    apply IH in H as (new & -> & Hall).
    exists (p :: new). split.
    + now rewrite <- app_assoc.
    + now constructor.
Qed.

Lemma build_papers_complete (dd : value) (ids : list value) :
  forall acc new,
    Forall2 (fun id p => build_paper dd id = Ok p) ids new ->
    build_papers dd ids acc = Ok (acc ++ new)%list.
Proof.
  induction ids as [|id ids IH]; intros acc new Hall.
  - inversion Hall; subst. simpl. now rewrite app_nil_r.
  - inversion Hall as [|? p ? new' Hp Hrest]; subst. simpl. rewrite Hp.
    rewrite (IH _ new' Hrest). now rewrite <- app_assoc.
Qed.

(** The ways [fetch_papers] returns normally: the search is answered;
    then either the identifier value is falsy and nothing else happens,
    or the summary lookup is answered and the loop builds the result. *)
Lemma fetch_papers_returns (query : string) (w w' : world)
    (papers : list dict) :
  fetch_papers query w = (Ok papers, w') ->
  exists sd es ids,
    answers w (search_request query) sd
    /\ py_get sd "esearchresult" (JObj []) = Ok es
    /\ py_get es "idlist" (JArr []) = Ok ids
    /\ ((truthy ids = false /\ papers = []
         /\ w' = with_request (search_request query) w)
        \/ (truthy ids = true
            /\ exists joined dd items,
                 py_join "," ids = Ok joined
                 /\ answers w (Request details_url (details_params joined)) dd
                 /\ py_iter ids = Ok items
                 /\ build_papers dd items [] = Ok papers
                 /\ w' = with_request
                           (Request details_url (details_params joined))
                           (with_request (search_request query) w))).
Proof.
  unfold fetch_papers, bind, requests_get, raise_for_status, response_json,
    lift, ret, raise, answers, search_request.
  intros H.
  destruct (net w (Request base_url (search_params query)))
    as [[st bd]|] eqn:Enet; simpl in H; [|discriminate].
  destruct (is_error_status st) eqn:Est; [discriminate|].
  destruct bd as [sd|]; simpl in H; [|discriminate].
  destruct (py_get sd "esearchresult" (JObj [])) as [es|] eqn:Ees;
    [|discriminate].
  destruct (py_get es "idlist" (JArr [])) as [ids|] eqn:Eids;
    [|discriminate].
  exists sd, es, ids. split; [eauto|]. split; [exact Ees|].
  split; [exact Eids|].
  destruct (truthy ids) eqn:Et; simpl in H.
  - right. split; [reflexivity|].
    destruct (py_join "," ids) as [joined|] eqn:Ej; [|discriminate].
    simpl in H.
    destruct (net w (Request details_url (details_params joined)))
      as [[st2 bd2]|] eqn:Enet2; simpl in H; [|discriminate].
    destruct (is_error_status st2) eqn:Est2; [discriminate|].
    destruct bd2 as [dd|]; simpl in H; [|discriminate].
    destruct (py_iter ids) as [items|] eqn:Ei; [|discriminate].
    destruct (build_papers dd items []) as [ps|] eqn:Eb; [|discriminate].
    injection H as <- <-.
    exists joined, dd, items. repeat split; eauto.
  - left. injection H as <- <-. auto.
Qed.

(** Every returned record is the six-key literal of the loop body. *)
Lemma fetch_papers_literals (query : string) (w w' : world)
    (papers : list dict) :
  fetch_papers query w = (Ok papers, w') ->
  Forall (fun p => exists id title pubdate,
                     p = paper_record id title pubdate) papers.
Proof.
  intros H.
  apply fetch_papers_returns in H
    as (sd & es & ids & _ & _ & _ & [(_ & -> & _)|(_ & H)]);
    [constructor|].
  destruct H as (joined & dd & items & _ & _ & _ & Hb & _).
  apply build_papers_inv in Hb as (new & -> & Hall). simpl.
  clear - Hall. induction Hall as [|id p ids new Hp _ IH]; constructor; auto.
  apply build_paper_shape in Hp as (t & d & ->). eauto.
Qed.

Lemma answers_unique (w : world) (r : request) (v v' : value) :
  answers w r v -> answers w r v' -> v = v'.
Proof. intros (st & H & _) (st' & H' & _). congruence. Qed.

(** With a list of identifiers in the search response, a normal return
    is either the empty result for the empty list, or one loop
    iteration per identifier over the summary response. *)
Lemma fetch_papers_per_id (query : string) (w w' : world)
    (papers : list dict) (sd : value) (ids : list string) :
  answers w (search_request query) sd ->
  has_idlist sd ids ->
  fetch_papers query w = (Ok papers, w') ->
  (ids = [] /\ papers = [])
  \/ (exists dd,
        answers w (details_request ids) dd
        /\ Forall2 (fun id p => build_paper dd (JStr id) = Ok p) ids papers).
Proof.
  intros Hans (d & es & -> & Hes & Hids) H.
  apply fetch_papers_returns in H
    as (sd' & es' & idv & Hans' & Hes' & Hidv & Hcases).
  rewrite <- (answers_unique _ _ _ _ Hans Hans') in Hes'.
  simpl in Hes'. unfold dict_get in Hes'. rewrite Hes in Hes'.
  injection Hes' as <-.
  simpl in Hidv. unfold dict_get in Hidv. rewrite Hids in Hidv.
  injection Hidv as <-.
  destruct Hcases
    as [(Ht & -> & _)|(Ht & joined & dd & items & Hj & Hd & Hi & Hb & _)].
  - left. split; [|reflexivity]. destruct ids; [reflexivity|discriminate].
  - right. rewrite py_join_strs in Hj. injection Hj as <-.
    simpl in Hi. injection Hi as <-.
    exists dd. split; [exact Hd|].
    apply build_papers_inv in Hb as (new & -> & Hall). simpl.
    clear - Hall. remember (map JStr ids) as items eqn:E.
    revert ids E. induction Hall as [|v p items new Hp _ IH]; intros ids E.
    + destruct ids; [constructor|discriminate].
    + destruct ids as [|id ids]; [discriminate|].
      injection E as -> ->. constructor; auto.
Qed.

(** With a list of identifiers in the search response and a summary
    response of the expected shape, [fetch_papers] returns. *)
Lemma fetch_papers_runs (query : string) (w : world) (sd dd : value)
    (ids : list string) :
  answers w (search_request query) sd ->
  has_idlist sd ids ->
  answers w (details_request ids) dd ->
  summaries_shaped dd ids ->
  exists papers w', fetch_papers query w = (Ok papers, w').
Proof.
  intros (st & Hnet & Hst) (d & es & -> & Hes & Hids)
    (st2 & Hnet2 & Hst2) (d2 & r & -> & Hr & Hs).
  assert (E1 : py_get (JObj d) "esearchresult" (JObj []) = Ok (JObj es))
    by (simpl; unfold dict_get; now rewrite Hes).
  assert (E2 : py_get (JObj es) "idlist" (JArr []) = Ok (JArr (map JStr ids)))
    by (simpl; unfold dict_get; now rewrite Hids).
  unfold fetch_papers, bind, requests_get, raise_for_status, response_json,
    lift, ret, raise.
  unfold search_request in Hnet. rewrite Hnet.
  cbn [status_code body]. rewrite Hst, E1, E2.
  destruct ids as [|id0 ids0] eqn:E; [simpl; eauto|].
  rewrite <- E in *.
  replace (truthy (JArr (map JStr ids))) with true by now rewrite E.
  clear E. cbn [negb]. rewrite py_join_strs.
  unfold details_request in Hnet2. cbn [net with_request]. rewrite Hnet2.
  cbn [status_code body py_iter]. rewrite Hst2.
  assert (Hall : exists new,
             Forall2 (fun id p => build_paper (JObj d2) id = Ok p)
               (map JStr ids) new).
  { clear - Hr Hs. induction ids as [|id ids IH].
    - exists []. constructor.
    - destruct IH as (new & Hnew); [intros; apply Hs; now right|].
      destruct (Hs id (or_introl eq_refl)) as (s & Hsid).
      eexists (_ :: new). constructor; [|exact Hnew].
      apply build_paper_str. exists d2, r, s. auto. }
  destruct Hall as (new & Hall).
  rewrite (build_papers_complete _ _ [] new Hall). eauto.
Qed.

Lemma Forall2_lookup_l_build (dd : value) (ids : list string)
    (papers : list dict) (i : nat) (id : string) :
  Forall2 (fun id p => build_paper dd (JStr id) = Ok p) ids papers ->
  ids !! i = Some id ->
  exists p, papers !! i = Some p /\ build_paper dd (JStr id) = Ok p.
Proof.
  intros Hall. revert i.
  induction Hall as [|id' p ids papers Hp _ IH]; intros [|i] Hi;
    try discriminate.
  - injection Hi as ->. exists p. auto.
  - apply IH. exact Hi.
Qed.

(** C1: when the search response carries a list of N identifiers, the
    sequence [fetch_papers] returns has exactly N records, each a Paper
    Record, and the one at position i has the i-th identifier as its
    PubmedID. It does
    return whenever the list is empty, and whenever the summary lookup
    is answered with a response of the expected shape. *)
Theorem fetch_papers_one_record_per_identifier (query : string) (w : world)
    (sd : value) (ids : list string) :
  answers w (search_request query) sd ->
  has_idlist sd ids ->
  (forall papers w',
      fetch_papers query w = (Ok papers, w') ->
      List.length papers = List.length ids
      /\ forall i id,
           ids !! i = Some id ->
           exists p, papers !! i = Some p
                     /\ is_paper_record p
                     /\ dict_lookup "PubmedID" p = Some (JStr id))
  /\ (ids = [] -> exists w', fetch_papers query w = (Ok [], w'))
  /\ (forall dd,
         answers w (details_request ids) dd ->
         summaries_shaped dd ids ->
         exists papers w', fetch_papers query w = (Ok papers, w')).
Proof.
  intros Hans Hids. split; [|split].
  - intros papers w' H.
    destruct (fetch_papers_per_id _ _ _ _ _ _ Hans Hids H)
      as [[-> ->]|(dd & _ & Hall)].
    + split; [reflexivity|]. intros i id Hi. destruct i; discriminate.
    + split; [symmetry; eapply Forall2_length; exact Hall|].
      intros i id Hi.
      destruct (Forall2_lookup_l_build _ _ _ _ _ Hall Hi) as (p & Hp & Hb).
      exists p. split; [exact Hp|].
      apply build_paper_shape in Hb as (t & d & ->).
      split; [unfold is_paper_record|]; reflexivity.
  - intros ->. destruct Hans as (st & Hnet & Hst).
    destruct Hids as (d & es & -> & Hes & Hidl).
    assert (E1 : py_get (JObj d) "esearchresult" (JObj []) = Ok (JObj es))
      by (simpl; unfold dict_get; now rewrite Hes).
    assert (E2 : py_get (JObj es) "idlist" (JArr []) = Ok (JArr []))
      by (simpl; unfold dict_get; now rewrite Hidl).
    unfold fetch_papers, bind, requests_get, raise_for_status, response_json,
      lift, ret, raise.
    unfold search_request in Hnet. rewrite Hnet.
    cbn [status_code body]. rewrite Hst, E1, E2. simpl. eauto.
  - intros dd Hd Hshape. eapply fetch_papers_runs; eauto.
Qed.

(** C3: in every record [fetch_papers] returns, whatever the query and
    the two responses, the three placeholder fields hold their fixed
    strings. *)
Theorem fetch_papers_placeholders_constant (query : string) (w w' : world)
    (papers : list dict) (p : dict) :
  fetch_papers query w = (Ok papers, w') ->
  In p papers ->
  dict_lookup "Non-academic Author(s)" p
    = Some (JStr "Heuristic not implemented")
  /\ dict_lookup "Company Affiliation(s)" p
     = Some (JStr "Heuristic not implemented")
  /\ dict_lookup "Corresponding Author Email" p
     = Some (JStr "Not available").
Proof.
  intros H Hin. apply fetch_papers_literals in H.
  rewrite List.Forall_forall in H.
  destruct (H p Hin) as (id & t & d & ->). repeat split.
Qed.

(** C4: for the identifier at every position of the search result
    list, the record at that position is built from the summary
    response: the entry result (an empty mapping when missing), in it
    the entry of the identifier (an empty mapping when missing), and
    from that the title and the pubdate (the empty string when
    missing). *)
Theorem fetch_papers_title_and_date_from_summary (query : string)
    (w w' : world) (sd : value) (ids : list string) (papers : list dict)
    (i : nat) (id : string) :
  answers w (search_request query) sd ->
  has_idlist sd ids ->
  fetch_papers query w = (Ok papers, w') ->
  ids !! i = Some id ->
  exists d r s p,
    answers w (details_request ids) (JObj d)
    /\ dict_get d "result" (JObj []) = JObj r
    /\ dict_get r id (JObj []) = JObj s
    /\ papers !! i = Some p
    /\ dict_lookup "Title" p = Some (dict_get s "title" (JStr ""))
    /\ dict_lookup "Publication Date" p
       = Some (dict_get s "pubdate" (JStr "")).
Proof.
  intros Hans Hids H Hi.
  destruct (fetch_papers_per_id _ _ _ _ _ _ Hans Hids H)
    as [[-> _]|(dd & Hd & Hall)]; [destruct i; discriminate|].
  destruct (Forall2_lookup_l_build _ _ _ _ _ Hall Hi) as (p & Hp & Hb).
  apply build_paper_str in Hb as (d & r & s & -> & Hr & Hs & ->).
  exists d, r, s. eexists. repeat split; eauto.
Qed.

(** C8, as the code has it: the search request asks for at most ten
    results, and [fetch_papers] returns one record per identifier of
    the search response, so no more than ten whenever the response
    lists no more than ten. *)
Theorem fetch_papers_asks_for_ten_keeps_all (query : string) (w w' : world)
    (res : result (list dict)) :
  fetch_papers query w = (res, w') ->
  dict_lookup "retmax" (req_params (search_request query)) = Some (JInt 10)
  /\ (exists more, sent w' = (sent w ++ search_request query :: more)%list)
  /\ (forall papers sd ids,
         res = Ok papers ->
         answers w (search_request query) sd ->
         has_idlist sd ids ->
         List.length papers = List.length ids
         /\ ((List.length ids <= 10)%nat -> (List.length papers <= 10)%nat)).
Proof.
  intros H. split; [reflexivity|]. split.
  - revert H.
    unfold fetch_papers, bind, requests_get, raise_for_status, response_json,
      lift, ret, raise, search_request.
    destruct (net w (Request base_url (search_params query)))
      as [[st bd]|]; cbn [status_code body];
      [|intros [= <- <-]; exists []; reflexivity].
    destruct (is_error_status st);
      [intros [= <- <-]; exists []; reflexivity|].
    destruct bd as [sd|]; [|intros [= <- <-]; exists []; reflexivity].
    destruct (py_get sd "esearchresult" (JObj [])) as [es|];
      [|intros [= <- <-]; exists []; reflexivity].
    destruct (py_get es "idlist" (JArr [])) as [ids|];
      [|intros [= <- <-]; exists []; reflexivity].
    destruct (negb (truthy ids));
      [intros [= <- <-]; exists []; reflexivity|].
    destruct (py_join "," ids) as [joined|];
      [|intros [= <- <-]; exists []; reflexivity].
    cbn [net with_request].
    set (r2 := Request details_url (details_params joined)).
    set (w1 := with_request _ w).
    assert (Hs : sent (with_request r2 w1)
                 = (sent w
                    ++ Request base_url (search_params query) :: [r2])%list)
      by (simpl; now rewrite <- app_assoc).
    destruct (net w r2) as [[st2 bd2]|]; cbn [status_code body];
      [|intros [= <- <-]; eauto].
    destruct (is_error_status st2); [intros [= <- <-]; eauto|].
    destruct bd2 as [dd|]; [|intros [= <- <-]; eauto].
    destruct (py_iter ids) as [items|]; [|intros [= <- <-]; eauto].
    intros [= <- <-]; eauto.
  - intros papers sd ids -> Hans Hids.
    assert (E : List.length papers = List.length ids).
    { destruct (fetch_papers_per_id _ _ _ _ _ _ Hans Hids H)
        as [[-> ->]|(dd & _ & Hall)]; [reflexivity|].
      symmetry; eapply Forall2_length; exact Hall. }
    split; [exact E|]. rewrite E. auto.
Qed.

(** C10: every record [fetch_papers] returns has the six field names
    as its keys, each once and in the order of the table; it is a paper
    record of the data model, and the CSV writer finds no key outside
    its field names. *)
Theorem fetch_papers_records_have_six_keys (query : string) (w w' : world)
    (papers : list dict) (p : dict) :
  fetch_papers query w = (Ok papers, w') ->
  In p papers ->
  dict_keys p
    = ["PubmedID"; "Title"; "Publication Date"; "Non-academic Author(s)";
       "Company Affiliation(s)"; "Corresponding Author Email"]
  /\ dict_keys p = fieldnames
  /\ is_paper_record p
  /\ dict_to_list p = Ok (map snd p).
Proof.
  intros H Hin. apply fetch_papers_literals in H.
  rewrite List.Forall_forall in H.
  destruct (H p Hin) as (id & t & d & ->).
  repeat split. unfold is_paper_record. reflexivity.
Qed.

(** * The debug level is invisible to the script *)

Lemma same_but_level_fields (w1 w2 : world) :
  same_but_level w1 w2 ->
  net w1 = net w2 /\ writable w1 = writable w2 /\ sent w1 = sent w2
  /\ root_level w1 = root_level w2 /\ log_stream w1 = log_stream w2
  /\ stdout w1 = stdout w2 /\ files w1 = files w2.
Proof.
  intros (E & _ & _). destruct w1, w2. unfold with_logger_level in E.
  simpl in *. injection E. intros. subst. repeat split.
Qed.

Lemma same_but_level_intro (w1 w2 : world) :
  net w1 = net w2 -> writable w1 = writable w2 -> sent w1 = sent w2 ->
  root_level w1 = root_level w2 -> log_stream w1 = log_stream w2 ->
  stdout w1 = stdout w2 -> files w1 = files w2 ->
  info_enabled w1 -> info_enabled w2 ->
  same_but_level w1 w2.
Proof.
  intros. destruct w1, w2. unfold same_but_level, with_logger_level.
  simpl in *. subst. auto.
Qed.

Section LevelBlind.

Context {A B : Type}.

Lemma blind_ret (a : A) : level_blind (ret a).
Proof. intros w1 w2 H. simpl. auto. Qed.

Lemma blind_raise (e : exn) : level_blind (@raise A e).
Proof. intros w1 w2 H. simpl. auto. Qed.

Lemma blind_lift (r : result A) : level_blind (lift r).
Proof. intros w1 w2 H. simpl. auto. Qed.

Lemma blind_bind (c : M A) (k : A -> M B) :
  level_blind c -> (forall a, level_blind (k a)) -> level_blind (bind c k).
Proof.
  intros Hc Hk w1 w2 H. unfold bind.
  destruct (Hc w1 w2 H) as [E R].
  destruct (c w1) as [r1 w1'], (c w2) as [r2 w2']. simpl in E, R.
  subst r2. destruct r1 as [a|e]; [apply Hk; exact R|]. simpl. auto.
Qed.

Lemma blind_try_except (c : M A) (h : exn -> M A) :
  level_blind c -> (forall e, level_blind (h e)) ->
  level_blind (try_except c h).
Proof.
  intros Hc Hh w1 w2 H. unfold try_except.
  destruct (Hc w1 w2 H) as [E R].
  destruct (c w1) as [r1 w1'], (c w2) as [r2 w2']. simpl in E, R.
  subst r2. destruct r1 as [a|e]; [simpl; auto|apply Hh; exact R].
Qed.

End LevelBlind.

(** A step that touches neither level, acts alike on states that agree
    up to the level of [logger], and returns the same result there. *)
Ltac blind_step :=
  let w1 := fresh "w1" in
  let w2 := fresh "w2" in
  let H := fresh "H" in
  let F := fresh "F" in
  intros w1 w2 H;
  pose proof (same_but_level_fields _ _ H) as F;
  destruct H as (_ & ? & ?);
  destruct F as (? & ? & ? & ? & ? & ? & ?).

Lemma blind_requests_get (url : string) (params : dict) :
  level_blind (requests_get url params).
Proof.
  blind_step. unfold requests_get. rewrite H1.
  destruct (net w2 (Request url params)); simpl; (split; [reflexivity|]);
    apply same_but_level_intro; simpl; auto; congruence.
Qed.

Lemma blind_raise_for_status (r : response) :
  level_blind (raise_for_status r).
Proof.
  unfold raise_for_status. destruct (is_error_status (status_code r));
    [apply blind_raise|apply blind_ret].
Qed.

Lemma blind_response_json (r : response) : level_blind (response_json r).
Proof.
  unfold response_json. destruct (body r); [apply blind_ret|apply blind_raise].
Qed.

Lemma blind_logger_log (level : Z) (fmt : string) (arg : log_arg) :
  INFO <= level -> level_blind (logger_log level fmt arg).
Proof.
  intros Hl. blind_step. unfold logger_log, info_enabled in *.
  destruct (Z.leb_spec (effective_level w1) level); [|lia].
  destruct (Z.leb_spec (effective_level w2) level); [|lia].
  simpl. split; [reflexivity|].
  apply same_but_level_intro; simpl; auto; congruence.
Qed.

Lemma blind_print (paper : dict) : level_blind (print paper).
Proof.
  blind_step. unfold print. simpl. split; [reflexivity|].
  apply same_but_level_intro; simpl; auto; congruence.
Qed.

Lemma blind_open_w (filename : string) : level_blind (open_w filename).
Proof.
  blind_step. unfold open_w. rewrite H2.
  destruct (writable w2 filename); simpl; (split; [reflexivity|]);
    apply same_but_level_intro; simpl; auto; congruence.
Qed.

Lemma blind_file_write (encodable : string -> bool)
    (filename text : string) :
  level_blind (file_write encodable filename text).
Proof.
  blind_step. unfold file_write. destruct (encodable text); simpl.
  - split; [reflexivity|].
    apply same_but_level_intro; simpl; auto; congruence.
  - split; [reflexivity|]. apply same_but_level_intro; auto.
Qed.

Lemma blind_for_each {A} (xs : list A) (f : A -> M unit) :
  (forall x, level_blind (f x)) -> level_blind (for_each xs f).
Proof.
  intros Hf. induction xs as [|x xs IH]; simpl.
  - apply blind_ret.
  - apply blind_bind; auto.
Qed.

Create HintDb blind.
#[local] Hint Resolve blind_ret blind_raise blind_lift blind_requests_get
  blind_raise_for_status blind_response_json blind_print blind_open_w
  blind_file_write : blind.

Ltac blind :=
  repeat first
    [ apply blind_bind; [|intros ?]
    | progress auto with blind
    | match goal with
      | |- level_blind (if ?b then _ else _) => destruct b
      | |- level_blind (match ?x with _ => _ end) => destruct x
      end ].

Lemma blind_fetch_papers (query : string) : level_blind (fetch_papers query).
Proof. unfold fetch_papers. blind. Qed.

Lemma blind_writerows (py_str : value -> string)
    (encodable : string -> bool) (filename : string)
    (rowdicts : list dict) :
  level_blind (writerows py_str encodable filename rowdicts).
Proof. induction rowdicts as [|d rest IH]; simpl; blind. Qed.

Lemma blind_save_to_csv (py_str : value -> string)
    (encodable : string -> bool) (papers : list dict)
    (filename : string) :
  level_blind (save_to_csv py_str encodable papers filename).
Proof.
  unfold save_to_csv, writeheader. blind. apply blind_writerows.
Qed.

Lemma blind_main_try (py_str : value -> string)
    (encodable : string -> bool) (a : args) :
  level_blind (main_try py_str encodable a).
Proof.
  unfold main_try, logger_info.
  apply blind_bind; [apply blind_logger_log; reflexivity|intros _].
  apply blind_bind; [apply blind_fetch_papers|intros papers].
  destruct papers as [|p papers]; [apply blind_logger_log; reflexivity|].
  destruct (file a) as [f|]; [|apply blind_for_each, blind_print].
  destruct (negb (String.eqb f "")); [|apply blind_for_each, blind_print].
  apply blind_bind; [apply blind_save_to_csv|intros _].
  apply blind_logger_log; reflexivity.
Qed.

(** * Runs of the script *)

(** A refused search raises before anything else happens. *)
Lemma fetch_papers_search_error (query : string) (w : world) (st : Z)
    (bd : option value) :
  net w (search_request query) = Some (Response st bd) ->
  is_error_status st = true ->
  fetch_papers query w
  = (Raise (HTTPError st), with_request (search_request query) w).
Proof.
  intros Hnet Hst.
  unfold fetch_papers, bind, requests_get, raise_for_status, raise.
  unfold search_request in Hnet. rewrite Hnet. cbn [status_code].
  now rewrite Hst.
Qed.

(** A search response without identifiers ends [fetch_papers] after the
    first request. *)
Lemma fetch_papers_no_identifiers (query : string) (w : world) (sd : value) :
  answers w (search_request query) sd ->
  no_identifiers sd ->
  fetch_papers query w = (Ok [], with_request (search_request query) w).
Proof.
  intros (st & Hnet & Hst) (d & -> & Hd).
  assert (E : exists ids,
             (exists es, py_get (JObj d) "esearchresult" (JObj []) = Ok es
                         /\ py_get es "idlist" (JArr []) = Ok ids)
             /\ truthy ids = false).
  { destruct Hd as [Hd|(es & Hes & [Hi|(v & Hi & Hv)])].
    - exists (JArr []). split; [|reflexivity].
      exists (JObj []). simpl. unfold dict_get. now rewrite Hd.
    - exists (JArr []). split; [|reflexivity].
      exists (JObj es). simpl. unfold dict_get. now rewrite Hes, Hi.
    - exists v. split; [|exact Hv].
      exists (JObj es). simpl. unfold dict_get. now rewrite Hes, Hi. }
  destruct E as (ids & (es & E1 & E2) & Et).
  unfold fetch_papers, bind, requests_get, raise_for_status, response_json,
    lift, ret, raise.
  unfold search_request in Hnet. rewrite Hnet.
  cbn [status_code body]. rewrite Hst, E1. cbn [bind]. rewrite E2, Et.
  reflexivity.
Qed.

(** The result of [fetch_papers] depends on the state through the
    network only. *)
Lemma fetch_papers_net_only (query : string) (w1 w2 : world) :
  net w1 = net w2 ->
  fst (fetch_papers query w1) = fst (fetch_papers query w2).
Proof.
  intros E.
  unfold fetch_papers, bind, requests_get, raise_for_status, response_json,
    lift, ret, raise.
  rewrite E.
  destruct (net w2 (Request base_url (search_params query)))
    as [[st bd]|]; cbn [status_code body]; [|reflexivity].
  destruct (is_error_status st); [reflexivity|].
  destruct bd as [sd|]; [|reflexivity].
  destruct (py_get sd "esearchresult" (JObj [])) as [es|]; [|reflexivity].
  destruct (py_get es "idlist" (JArr [])) as [ids|]; [|reflexivity].
  destruct (negb (truthy ids)); [reflexivity|].
  destruct (py_join "," ids) as [joined|]; [|reflexivity].
  cbn [net with_request]. rewrite E.
  destruct (net w2 (Request details_url (details_params joined)))
    as [[st2 bd2]|]; cbn [status_code body]; [|reflexivity].
  destruct (is_error_status st2); [reflexivity|].
  destruct bd2 as [dd|]; [|reflexivity].
  destruct (py_iter ids) as [items|]; reflexivity.
Qed.

Lemma configured_info_enabled (a : args) (network : request -> option response)
    (can_write : string -> bool) (disk : gmap string string) :
  info_enabled (configured a (initial_world network can_write disk)).
Proof.
  unfold configured, info_enabled, effective_level. destruct (debug a); simpl.
  - unfold DEBUG, INFO. lia.
  - unfold INFO. lia.
Qed.


(** [main] is the optional level change followed by the guarded block,
    and the handler itself cannot fail. *)
Lemma script_unfold (py_str : value -> string)
    (encodable : string -> bool) (a : args)
    (network : request -> option response) (can_write : string -> bool)
    (disk : gmap string string) :
  script py_str encodable a network can_write disk
  = match main_try py_str encodable a
            (configured a (initial_world network can_write disk)) with
    | (Ok _, w) => (0, w)
    | (Raise e, w) =>
        (0, snd (logger_error "An error occurred: %s" (ExnArg e) w))
    end.
Proof.
  unfold script, main, bind, try_except, configured.
  destruct (debug a); simpl;
    match goal with
    | |- context [main_try py_str encodable a ?w] =>
        destruct (main_try py_str encodable a w) as [[[]|e] w']
    end; try reflexivity;
    unfold logger_error, logger_log;
    destruct (effective_level w' <=? ERROR); reflexivity.
Qed.

(** C2: when the search response has no identifiers (the key idlist is
    missing at its path, or holds the empty list), [fetch_papers]
    returns the empty sequence after the search request alone, and the
    script logs that no papers were found, prints nothing, leaves every
    file as it was and ends with status 0. *)
Theorem no_identifiers_no_sink (py_str : value -> string)
    (encodable : string -> bool)
    (q : string) (f : option string) (dbg : bool)
    (network : request -> option response) (can_write : string -> bool)
    (disk : gmap string string) (sd : value) :
  answers (initial_world network can_write disk) (search_request q) sd ->
  no_identifiers sd ->
  (forall w, net w = network ->
             fetch_papers q w = (Ok [], with_request (search_request q) w))
  /\ exists w',
       script py_str encodable (Args q f dbg) network can_write disk = (0, w')
       /\ sent w' = [search_request q]
       /\ log_stream w'
          = [LogRecord INFO "Fetching papers for query: %s" (StrArg q);
             LogRecord INFO "No papers found for the given query." NoArg]
       /\ stdout w' = []
       /\ files w' = disk.
Proof.
  intros Hans Hno. split.
  - intros w Hw.
    apply fetch_papers_no_identifiers with (sd := sd); [|exact Hno].
    destruct Hans as (st & Hnet & Hst). exists st. simpl in Hnet.
    rewrite Hw. auto.
  - rewrite script_unfold. unfold main_try, bind, logger_info, logger_log.
    destruct dbg; simpl;
      match goal with
      | |- context [fetch_papers q ?w] =>
          rewrite (fetch_papers_no_identifiers q w sd);
            [|destruct Hans as (st & Hnet & Hst); exists st; auto|exact Hno]
      end; simpl; eexists; repeat split.
Qed.


(** C7: when the search request is answered with an error status, the
    script logs the error and ends; only the search request was issued,
    nothing was printed and every file is as it was. *)
Theorem search_failure_writes_nothing (py_str : value -> string)
    (encodable : string -> bool)
    (q : string) (f : option string) (dbg : bool)
    (network : request -> option response) (can_write : string -> bool)
    (disk : gmap string string) (st : Z) (bd : option value) :
  network (search_request q) = Some (Response st bd) ->
  is_error_status st = true ->
  exists w',
    script py_str encodable (Args q f dbg) network can_write disk = (0, w')
    /\ log_stream w'
       = [LogRecord INFO "Fetching papers for query: %s" (StrArg q);
          LogRecord ERROR "An error occurred: %s" (ExnArg (HTTPError st))]
    /\ sent w' = [search_request q]
    /\ stdout w' = []
    /\ files w' = disk.
Proof.
  intros Hnet Hst.
  rewrite script_unfold.
  unfold main_try, bind, logger_info, logger_error, logger_log.
  destruct dbg; simpl;
    match goal with
    | |- context [fetch_papers q ?w] =>
        rewrite (fetch_papers_search_error q w st bd Hnet Hst)
    end; simpl; eexists; repeat split.
Qed.

(** C9: two runs that differ in the debug flag alone end with the same
    status, the same requests issued, the same printed records, the
    same files and even the same log; and the records [fetch_papers]
    returns do not depend on the level of the logger. *)
Theorem debug_flag_changes_no_output (py_str : value -> string)
    (encodable : string -> bool)
    (q : string) (f : option string)
    (network : request -> option response) (can_write : string -> bool)
    (disk : gmap string string) :
  let quiet :=
    script py_str encodable (Args q f false) network can_write disk in
  let verbose :=
    script py_str encodable (Args q f true) network can_write disk in
  fst verbose = fst quiet
  /\ sent (snd verbose) = sent (snd quiet)
  /\ stdout (snd verbose) = stdout (snd quiet)
  /\ files (snd verbose) = files (snd quiet)
  /\ log_stream (snd verbose) = log_stream (snd quiet)
  /\ forall w,
       fst (fetch_papers q (with_logger_level DEBUG w))
       = fst (fetch_papers q w).
Proof.
  intros quiet verbose.
  assert (R : same_but_level
                (configured (Args q f true)
                   (initial_world network can_write disk))
                (configured (Args q f false)
                   (initial_world network can_write disk))).
  { apply same_but_level_intro; try reflexivity;
      apply configured_info_enabled. }
  assert (Hmain : level_blind
            (try_except (main_try py_str encodable (Args q f true))
               (fun e => logger_error "An error occurred: %s" (ExnArg e)))).
  { apply blind_try_except; [apply blind_main_try|].
    intros e. apply blind_logger_log. unfold INFO, ERROR. lia. }
  destruct (Hmain _ _ R) as [E S].
  apply same_but_level_fields in S as (_ & _ & Hs & _ & Hl & Ho & Hf).
  assert (Ev : verbose
               = match try_except (main_try py_str encodable (Args q f true))
                         (fun e => logger_error "An error occurred: %s"
                                     (ExnArg e))
                         (configured (Args q f true)
                            (initial_world network can_write disk)) with
                 | (Ok _, w) => (0, w)
                 | (Raise _, w) => (1, w)
                 end) by reflexivity.
  assert (Eq : quiet
               = match try_except (main_try py_str encodable (Args q f true))
                         (fun e => logger_error "An error occurred: %s"
                                     (ExnArg e))
                         (configured (Args q f false)
                            (initial_world network can_write disk)) with
                 | (Ok _, w) => (0, w)
                 | (Raise _, w) => (1, w)
                 end) by reflexivity.
  rewrite Ev, Eq. clear Ev Eq.
  destruct (try_except _ _ (configured (Args q f true) _)) as [r1 w1].
  destruct (try_except _ _ (configured (Args q f false) _)) as [r2 w2].
  simpl in E, Hs, Hl, Ho, Hf. subst r2.
  split; [destruct r1; reflexivity|].
  split; [destruct r1; exact Hs|].
  split; [destruct r1; exact Ho|].
  split; [destruct r1; exact Hf|].
  split; [destruct r1; exact Hl|].
  intros w. apply fetch_papers_net_only. reflexivity.
Qed.

(** * Reading back what the CSV writer wrote *)

Lemma append_cons (c : ascii) (s t : string) :
  String c s ++ t = String c (s ++ t).
Proof. reflexivity. Qed.

Lemma append_nil_l (s : string) : "" ++ s = s.
Proof. reflexivity. Qed.

Lemma append_nil_r (s : string) : s ++ "" = s.
Proof.
  induction s as [|c s IH]; [reflexivity|].
  now rewrite append_cons, IH.
Qed.

Lemma append_assoc (a b c : string) : (a ++ b) ++ c = a ++ b ++ c.
Proof.
  induction a as [|x a IH]; [reflexivity|].
  now rewrite !append_cons, IH.
Qed.











(** ** Steps of the one-pass reader *)





























(** * [save_to_csv] *)

Lemma filter_none {A} (g : A -> bool) (l : list A) :
  (forall x, In x l -> g x = false) -> List.filter g l = [].
Proof.
  induction l as [|x l IH]; intros H; [reflexivity|].
  simpl. rewrite (H x (or_introl eq_refl)). apply IH.
  intros y Hy. apply H. now right.
Qed.

Lemma mem_In (k : string) (ks : list string) :
  mem k ks = true <-> In k ks.
Proof.
  unfold mem. rewrite existsb_exists. split.
  - intros (x & Hin & E). apply String.eqb_eq in E. now subst.
  - intros Hin. exists k. split; [exact Hin|apply String.eqb_refl].
Qed.

Lemma dict_to_list_allowed (d : dict) :
  keys_allowed d ->
  dict_to_list d
  = Ok (map (fun key => dict_get d key (JStr "")) fieldnames).
Proof.
  intros Hd. unfold dict_to_list. rewrite filter_none; [reflexivity|].
  intros k Hk. apply negb_false_iff. apply mem_In. now apply Hd.
Qed.

Lemma dict_to_list_extra (d : dict) :
  has_extra_key d -> dict_to_list d = Raise ValueError.
Proof.
  intros (k & Hk & Hno). unfold dict_to_list.
  destruct (List.filter (fun k => negb (mem k fieldnames)) (dict_keys d))
    eqn:E; [|reflexivity].
  exfalso.
  assert (Hin : In k (List.filter (fun k => negb (mem k fieldnames))
                        (dict_keys d))).
  { apply filter_In. split; [exact Hk|]. apply negb_true_iff.
    destruct (mem k fieldnames) eqn:Em; [|reflexivity].
    apply mem_In in Em. contradiction. }
  rewrite E in Hin. destruct Hin.
Qed.

Lemma paper_record_keys_allowed (d : dict) :
  is_paper_record d -> keys_allowed d.
Proof. intros Hd k Hk. eapply Permutation_in; eauto. Qed.

(** A Paper Record has no key the writer would refuse. *)
Lemma dict_to_list_paper_record (d : dict) :
  is_paper_record d ->
  dict_to_list d
  = Ok (map (fun key => dict_get d key (JStr "")) fieldnames).
Proof.
  intros Hd. apply dict_to_list_allowed. now apply paper_record_keys_allowed.
Qed.

Lemma with_files_same (w : world) : with_files (files w) w = w.
Proof. now destruct w. Qed.

(** On an open file, [writerows] ends as [rows_written] says and has
    appended the lines of the rows written by then. *)
Lemma writerows_written (py_str : value -> string)
    (encodable : string -> bool) (filename : string)
    (papers : list dict) :
  forall w content,
    files w !! filename = Some content ->
    writerows py_str encodable filename papers w
    = (fst (rows_written py_str encodable papers),
       with_files
         (<[filename := content
                        ++ rows_text
                             (snd (rows_written py_str encodable papers))]>
            (files w))
         w).
Proof.
  assert (Hstop : forall w content,
             files w !! filename = Some content ->
             w = with_files (<[filename := content ++ rows_text []]> (files w))
                   w).
  { intros w content Hfile. cbn [rows_text].
    rewrite append_nil_r, insert_id by exact Hfile.
    now rewrite with_files_same. }
  induction papers as [|d papers IH]; intros w content Hfile.
  - cbn [writerows rows_written fst snd]. unfold ret.
    now rewrite <- (Hstop w content Hfile).
  - cbn [writerows rows_written]. unfold bind, lift.
    destruct (dict_to_list d) as [row|e].
    + unfold file_write at 1.
      destruct (encodable (writerow (map (field_text py_str) row))).
      * rewrite Hfile. cbn [default].
        rewrite (IH _ (content
                       ++ writerow (map (field_text py_str) row)))
          by apply lookup_insert_eq.
        cbn [fst snd files with_files rows_text].
        now rewrite insert_insert_eq, append_assoc.
      * cbn [fst snd]. now rewrite <- (Hstop w content Hfile).
    + cbn [fst snd]. now rewrite <- (Hstop w content Hfile).
Qed.

Lemma header_line_writerow : writerow fieldnames = header_line.
Proof. reflexivity. Qed.

(** What [save_to_csv] does on a writable path: the file is emptied,
    then the header line is written, then the rows. *)
Lemma save_to_csv_written (py_str : value -> string)
    (encodable : string -> bool) (papers : list dict)
    (filename : string) (w : world) :
  writable w filename = true ->
  save_to_csv py_str encodable papers filename w
  = if encodable header_line
    then
      (fst (rows_written py_str encodable papers),
       with_files
         (<[filename := header_line
                        ++ rows_text
                             (snd (rows_written py_str encodable papers))]>
            (files w))
         w)
    else
      (Raise UnicodeEncodeError,
       with_files (<[filename := ""]> (files w)) w).
Proof.
  intros Hw. unfold save_to_csv, bind, open_w, writeheader.
  rewrite Hw. unfold file_write at 1. rewrite header_line_writerow.
  destruct (encodable header_line); [|reflexivity].
  cbn [files with_files]. rewrite lookup_insert_eq. cbn [default].
  rewrite append_nil_l.
  rewrite (writerows_written py_str encodable filename papers _ header_line)
    by apply lookup_insert_eq.
  cbn [files with_files]. now rewrite !insert_insert_eq.
Qed.


(** After such records, a record that cannot be written ends
    [writerows]: with a value error when it has a key that is no field
    name, with an encoding error when the codec refuses its line. *)
Lemma rows_written_stops (py_str : value -> string)
    (encodable : string -> bool) (good : list dict) (bad : dict)
    (rest : list dict) (e : exn) :
  Forall keys_allowed good ->
  Forall (fun p => encodable (writerow (row_texts py_str p)) = true) good ->
  (has_extra_key bad /\ e = ValueError)
  \/ (keys_allowed bad
      /\ encodable (writerow (row_texts py_str bad)) = false
      /\ e = UnicodeEncodeError) ->
  rows_written py_str encodable (good ++ bad :: rest)
  = (Raise e, map (row_texts py_str) good).
Proof.
  induction good as [|d good IH]; intros Hkeys Henc Hbad.
  - cbn [app rows_written map].
    destruct Hbad as [(Hx & ->)|(Hk & He & ->)].
    + now rewrite (dict_to_list_extra bad Hx).
    + rewrite (dict_to_list_allowed bad Hk).
      change (map (field_text py_str)
                (map (fun key => dict_get bad key (JStr "")) fieldnames))
        with (row_texts py_str bad).
      now rewrite He.
  - inversion Hkeys as [|? ? Hd Hrest]; subst.
    inversion Henc as [|? ? He Herest]; subst.
    cbn [app rows_written]. rewrite (dict_to_list_allowed d Hd).
    change (map (field_text py_str)
              (map (fun key => dict_get d key (JStr "")) fieldnames))
      with (row_texts py_str d).
    rewrite He, (IH Hrest Herest Hbad). reflexivity.
Qed.


(** On a writable path, with a codec that can encode the header line,
    [save_to_csv] ends as [rows_written] says, the file holding the
    header line and the rows written by then. *)
Lemma save_to_csv_rows (py_str : value -> string)
    (encodable : string -> bool) (papers : list dict) (filename : string)
    (w : world) (r : result unit) (rows : list (list string)) :
  writable w filename = true ->
  encodable header_line = true ->
  rows_written py_str encodable papers = (r, rows) ->
  save_to_csv py_str encodable papers filename w
  = (r, with_files (<[filename := header_line ++ rows_text rows]> (files w))
          w).
Proof.
  intros Hw Hhead Hrows.
  rewrite (save_to_csv_written py_str encodable papers filename w Hw).
  now rewrite Hhead, Hrows.
Qed.



(** * The sample runs *)

(** The example of the specification: two identifiers, two records. *)
Example fetch_papers_sample :
  fetch_papers "cancer" sample_world
  = (Ok sample_papers,
     with_request (details_request ["111"; "222"])
       (with_request (search_request "cancer") sample_world)).
Proof. reflexivity. Qed.

Example sample_answers :
  answers sample_world (search_request "cancer") sample_search.
Proof. exists 200. split; reflexivity. Qed.

Example sample_has_idlist : has_idlist sample_search ["111"; "222"].
Proof. eexists _, _. repeat split. Qed.

Example sample_summary_answers :
  answers sample_world (details_request ["111"; "222"]) sample_summary.
Proof. exists 200. split; reflexivity. Qed.

Example sample_summaries_shaped :
  summaries_shaped sample_summary ["111"; "222"].
Proof.
  eexists _, _. split; [reflexivity|]. split; [reflexivity|].
  intros id [<-|[<-|[]]]; eexists; reflexivity.
Qed.

Example sample_papers_are_records : Forall is_paper_record sample_papers.
Proof. repeat constructor. Qed.

Lemma fetch_papers_one_record_per_identifier_witness :
  answers sample_world (search_request "cancer") sample_search
  /\ has_idlist sample_search ["111"; "222"]
  /\ exists papers w',
       fetch_papers "cancer" sample_world = (Ok papers, w')
       /\ List.length papers = 2%nat
       /\ exists p, papers !! 1%nat = Some p
                    /\ is_paper_record p
                    /\ dict_lookup "PubmedID" p = Some (JStr "222").
Proof.
  split; [exact sample_answers|]. split; [exact sample_has_idlist|].
  destruct (fetch_papers_one_record_per_identifier "cancer" sample_world
              sample_search ["111"; "222"] sample_answers sample_has_idlist)
    as (Hrec & _ & Hrun).
  destruct (Hrun sample_summary sample_summary_answers
              sample_summaries_shaped) as (papers & w' & E).
  exists papers, w'. destruct (Hrec papers w' E) as (Hlen & Hids).
  split; [exact E|]. split; [exact Hlen|].
  apply (Hids 1%nat "222"). reflexivity.
Defined.

Lemma no_identifiers_no_sink_witness :
  answers (initial_world empty_net all_writable ∅) (search_request "zzz")
    (JObj [("esearchresult", JObj [("idlist", JArr [])])])
  /\ no_identifiers (JObj [("esearchresult", JObj [("idlist", JArr [])])])
  /\ exists w',
       script sample_str sample_codec (Args "zzz" (Some "out.csv") false)
         empty_net all_writable ∅ = (0, w')
       /\ sent w' = [search_request "zzz"]
       /\ stdout w' = []
       /\ files w' = ∅.
Proof.
  assert (Ha : answers (initial_world empty_net all_writable ∅)
                 (search_request "zzz")
                 (JObj [("esearchresult", JObj [("idlist", JArr [])])])).
  { exists 200. split; reflexivity. }
  assert (Hn : no_identifiers
                 (JObj [("esearchresult", JObj [("idlist", JArr [])])])).
  { eexists. split; [reflexivity|]. right. eexists.
    split; [reflexivity|]. right. exists (JArr []). split; reflexivity. }
  split; [exact Ha|]. split; [exact Hn|].
  destruct (no_identifiers_no_sink sample_str sample_codec "zzz"
              (Some "out.csv") false empty_net all_writable ∅ _ Ha Hn)
    as (_ & w' & E & Hs & _ & Ho & Hf).
  exists w'. auto.
Defined.

Lemma fetch_papers_placeholders_constant_witness :
  fetch_papers "cancer" sample_world
  = (Ok sample_papers,
     with_request (details_request ["111"; "222"])
       (with_request (search_request "cancer") sample_world))
  /\ In (paper_record (JStr "222") (JStr "") (JStr "2021")) sample_papers
  /\ dict_lookup "Corresponding Author Email"
       (paper_record (JStr "222") (JStr "") (JStr "2021"))
     = Some (JStr "Not available").
Proof.
  split; [exact fetch_papers_sample|].
  assert (Hin : In (paper_record (JStr "222") (JStr "") (JStr "2021"))
                  sample_papers) by (right; left; reflexivity).
  split; [exact Hin|].
  exact (proj2 (proj2 (fetch_papers_placeholders_constant "cancer"
                         sample_world _ sample_papers _
                         fetch_papers_sample Hin))).
Defined.

Lemma fetch_papers_title_and_date_from_summary_witness :
  exists d r s p,
    answers sample_world (details_request ["111"; "222"]) (JObj d)
    /\ dict_get d "result" (JObj []) = JObj r
    /\ dict_get r "222" (JObj []) = JObj s
    /\ sample_papers !! 1%nat = Some p
    /\ dict_lookup "Title" p = Some (dict_get s "title" (JStr ""))
    /\ dict_lookup "Publication Date" p
       = Some (dict_get s "pubdate" (JStr "")).
Proof.
  exact (fetch_papers_title_and_date_from_summary "cancer" sample_world _
           sample_search ["111"; "222"] sample_papers 1%nat "222"
           sample_answers sample_has_idlist fetch_papers_sample eq_refl).
Defined.

Example sample_lines_encodable :
  Forall (fun p => sample_codec (writerow (row_texts sample_str p)) = true)
    sample_papers.
Proof. repeat constructor. Qed.









Lemma search_failure_writes_nothing_witness :
  failing_net (search_request "cancer") = Some (Response 503 None)
  /\ is_error_status 503 = true
  /\ exists w',
       script sample_str sample_codec (Args "cancer" (Some "out.csv") true)
         failing_net all_writable ∅ = (0, w')
       /\ log_stream w'
          = [LogRecord INFO "Fetching papers for query: %s" (StrArg "cancer");
             LogRecord ERROR "An error occurred: %s" (ExnArg (HTTPError 503))]
       /\ sent w' = [search_request "cancer"]
       /\ stdout w' = []
       /\ files w' = ∅.
Proof.
  split; [reflexivity|]. split; [reflexivity|].
  exact (search_failure_writes_nothing sample_str sample_codec "cancer"
           (Some "out.csv") true failing_net all_writable ∅ 503 None
           eq_refl eq_refl).
Defined.

(** C8 as stated fails: the server lists eleven identifiers and
    [fetch_papers] returns eleven records. *)
Lemma fetch_papers_more_than_ten :
  (exists papers w',
      fetch_papers "cancer" (initial_world eleven_net all_writable ∅)
      = (Ok papers, w')
      /\ List.length papers = 11%nat)
  /\ ~ (forall query w papers w',
           fetch_papers query w = (Ok papers, w') ->
           (List.length papers <= 10)%nat).
Proof.
  assert (E : exists papers w',
             fetch_papers "cancer" (initial_world eleven_net all_writable ∅)
             = (Ok papers, w')
             /\ List.length papers = 11%nat).
  { eexists _, _. split; reflexivity. }
  split; [exact E|].
  intros H. destruct E as (papers & w' & E & Hlen).
  apply H in E. lia.
Qed.

Lemma fetch_papers_asks_for_ten_keeps_all_witness :
  fetch_papers "cancer" sample_world
  = (Ok sample_papers,
     with_request (details_request ["111"; "222"])
       (with_request (search_request "cancer") sample_world))
  /\ dict_lookup "retmax" (req_params (search_request "cancer"))
     = Some (JInt 10)
  /\ List.length sample_papers = 2%nat.
Proof.
  split; [exact fetch_papers_sample|].
  destruct (fetch_papers_asks_for_ten_keeps_all "cancer" sample_world _ _
              fetch_papers_sample) as (Hmax & _ & Hlen).
  split; [exact Hmax|].
  exact (proj1 (Hlen sample_papers sample_search ["111"; "222"] eq_refl
                  sample_answers sample_has_idlist)).
Defined.

Lemma fetch_papers_records_have_six_keys_witness :
  fetch_papers "cancer" sample_world
  = (Ok sample_papers,
     with_request (details_request ["111"; "222"])
       (with_request (search_request "cancer") sample_world))
  /\ In (paper_record (JStr "111") (JStr "Tumours, a review")
           (JStr "2020 Jan")) sample_papers
  /\ dict_keys (paper_record (JStr "111") (JStr "Tumours, a review")
                  (JStr "2020 Jan")) = fieldnames.
Proof.
  split; [exact fetch_papers_sample|].
  assert (Hin : In (paper_record (JStr "111") (JStr "Tumours, a review")
                      (JStr "2020 Jan")) sample_papers)
    by (left; reflexivity).
  split; [exact Hin|].
  exact (proj1 (proj2 (fetch_papers_records_have_six_keys "cancer"
                         sample_world _ sample_papers _
                         fetch_papers_sample Hin))).
Defined.

(** * Further properties of [fetch_papers], [save_to_csv] and the script *)

(** After an answered search, [fetch_papers] goes on from the
    identifier value. *)
Lemma fetch_papers_after_search (q : string) (w : world) (sd : value) :
  answers w (search_request q) sd ->
  fetch_papers q w
  = match idlist_value sd with
    | Raise e => (Raise e, with_request (search_request q) w)
    | Ok ids =>
        if truthy ids
        then fetch_details ids (with_request (search_request q) w)
        else (Ok [], with_request (search_request q) w)
    end.
Proof.
  intros (st & Hnet & Hst).
  unfold fetch_papers, fetch_details, idlist_value, bind, requests_get,
    raise_for_status, response_json, lift, ret, raise.
  unfold search_request in Hnet. rewrite Hnet.
  cbn [status_code body]. rewrite Hst.
  destruct (py_get sd "esearchresult" (JObj [])) as [es|]; [|reflexivity].
  destruct (py_get es "idlist" (JArr [])) as [ids|]; [|reflexivity].
  destruct (truthy ids); reflexivity.
Qed.

Lemma has_idlist_value (sd : value) (ids : list string) :
  has_idlist sd ids -> idlist_value sd = Ok (JArr (map JStr ids)).
Proof.
  intros (d & es & -> & Hes & Hids). unfold idlist_value. simpl.
  unfold dict_get. rewrite Hes. simpl. unfold dict_get. now rewrite Hids.
Qed.

(** What the summary stage does once the identifiers are joined and
    the summary lookup is answered. *)
Lemma fetch_details_answered (ids : value) (joined : string)
    (items : list value) (w : world) (dd : value) :
  py_join "," ids = Ok joined ->
  py_iter ids = Ok items ->
  answers w (Request details_url (details_params joined)) dd ->
  fetch_details ids w
  = (build_papers dd items [],
     with_request (Request details_url (details_params joined)) w).
Proof.
  intros Hj Hi (st & Hnet & Hst).
  unfold fetch_details, bind, requests_get, raise_for_status, response_json,
    lift, ret, raise.
  rewrite Hj, Hnet. cbn [status_code body]. rewrite Hst, Hi. reflexivity.
Qed.

Lemma answers_after_request (w : world) (r r' : request) (v : value) :
  answers w r v -> answers (with_request r' w) r v.
Proof. intros H. exact H. Qed.

Lemma holds_idlist_value (sd v : value) :
  holds_idlist sd v -> idlist_value sd = Ok v.
Proof.
  intros (d & es & -> & Hes & Hids). unfold idlist_value. simpl.
  unfold dict_get. rewrite Hes. simpl. unfold dict_get. now rewrite Hids.
Qed.

(** The state after [fetch_papers]: one request more, or two. *)
Lemma fetch_papers_snd (q : string) (w : world) :
  snd (fetch_papers q w) = with_request (search_request q) w
  \/ exists joined,
       snd (fetch_papers q w)
       = with_request (Request details_url (details_params joined))
           (with_request (search_request q) w).
Proof.
  unfold fetch_papers, bind, requests_get, raise_for_status, response_json,
    lift, ret, raise, search_request.
  destruct (net w (Request base_url (search_params q)))
    as [[st bd]|]; cbn [status_code body]; [|now left].
  destruct (is_error_status st); [now left|].
  destruct bd as [sd|]; [|now left].
  destruct (py_get sd "esearchresult" (JObj [])) as [es|]; [|now left].
  destruct (py_get es "idlist" (JArr [])) as [ids|]; [|now left].
  destruct (negb (truthy ids)); [now left|].
  destruct (py_join "," ids) as [joined|]; [|now left].
  right. exists joined. cbn [net with_request].
  destruct (net w (Request details_url (details_params joined)))
    as [[st2 bd2]|]; cbn [status_code body]; [|reflexivity].
  destruct (is_error_status st2); [reflexivity|].
  destruct bd2 as [dd|]; [|reflexivity].
  destruct (py_iter ids) as [items|]; reflexivity.
Qed.

(** X1: [fetch_papers] records the search request, then at most the
    summary request, and changes nothing else of the state: no file, no
    printed line, no log record, no logger level. *)
Theorem fetch_papers_only_sends_requests (q : string) (w : world) :
  (snd (fetch_papers q w) = with_request (search_request q) w
   \/ exists joined,
        snd (fetch_papers q w)
        = with_request (Request details_url (details_params joined))
            (with_request (search_request q) w))
  /\ files (snd (fetch_papers q w)) = files w
  /\ stdout (snd (fetch_papers q w)) = stdout w
  /\ log_stream (snd (fetch_papers q w)) = log_stream w
  /\ logger_level (snd (fetch_papers q w)) = logger_level w.
Proof.
  pose proof (fetch_papers_snd q w) as H. split; [exact H|].
  destruct H as [->|(joined & ->)]; repeat split.
Qed.

(** X2: a search that fails makes [fetch_papers] raise after the search
    request alone: a failed connection, an error status, a body that is
    no JSON, a body that is no mapping, an esearchresult entry that is
    no mapping. *)
Theorem fetch_papers_search_failures (q : string) (w : world) :
  (net w (search_request q) = None ->
   fetch_papers q w
   = (Raise ConnectionError, with_request (search_request q) w))
  /\ (forall st bd,
         net w (search_request q) = Some (Response st bd) ->
         is_error_status st = true ->
         fetch_papers q w
         = (Raise (HTTPError st), with_request (search_request q) w))
  /\ (forall st,
         net w (search_request q) = Some (Response st None) ->
         is_error_status st = false ->
         fetch_papers q w
         = (Raise JSONDecodeError, with_request (search_request q) w))
  /\ (forall sd,
         answers w (search_request q) sd ->
         (forall d, sd <> JObj d) ->
         fetch_papers q w
         = (Raise AttributeError, with_request (search_request q) w))
  /\ (forall d v,
         answers w (search_request q) (JObj d) ->
         dict_lookup "esearchresult" d = Some v ->
         (forall es, v <> JObj es) ->
         fetch_papers q w
         = (Raise AttributeError, with_request (search_request q) w)).
Proof.
  split; [|split; [|split; [|split]]].
  - intros Hnet. unfold fetch_papers, bind, requests_get.
    unfold search_request in Hnet. now rewrite Hnet.
  - intros st bd Hnet Hst. now apply fetch_papers_search_error with (bd := bd).
  - intros st Hnet Hst.
    unfold fetch_papers, bind, requests_get, raise_for_status, response_json,
      ret, raise.
    unfold search_request in Hnet. rewrite Hnet. cbn [status_code body].
    now rewrite Hst.
  - intros sd Hans Hsd. rewrite (fetch_papers_after_search q w sd Hans).
    unfold idlist_value.
    destruct sd; try reflexivity. now destruct (Hsd kvs).
  - intros d v Hans Hv Hne.
    rewrite (fetch_papers_after_search q w _ Hans).
    unfold idlist_value. simpl. unfold dict_get. rewrite Hv.
    destruct v; try reflexivity. now destruct (Hne kvs).
Qed.

Lemma all_strs_not_str (xs : list value) :
  (exists x, In x xs /\ forall s, x <> JStr s) ->
  all_strs xs = Raise TypeError.
Proof.
  induction xs as [|x xs IH]; intros (y & Hin & Hy); [destruct Hin|].
  destruct x as [| | | |s| |]; try reflexivity.
  simpl. rewrite IH; [reflexivity|].
  destruct Hin as [<-|Hin]; [now destruct (Hy s)|eauto].
Qed.

(** X3: an identifier list with an element that is no string makes
    [fetch_papers] raise a type error when it joins the identifiers,
    before any summary request is issued. *)
Theorem fetch_papers_rejects_non_string_identifier (q : string) (w : world)
    (sd : value) (xs : list value) :
  answers w (search_request q) sd ->
  holds_idlist sd (JArr xs) ->
  (exists x, In x xs /\ forall s, x <> JStr s) ->
  fetch_papers q w = (Raise TypeError, with_request (search_request q) w).
Proof.
  intros Hans Hids Hbad.
  rewrite (fetch_papers_after_search q w sd Hans).
  rewrite (holds_idlist_value _ _ Hids).
  assert (Ht : truthy (JArr xs) = true).
  { destruct xs; [|reflexivity]. now destruct Hbad as (x & [] & _). }
  rewrite Ht. unfold fetch_details, bind, lift, py_join. cbn [py_iter].
  now rewrite (all_strs_not_str xs Hbad).
Qed.

Lemma fetch_papers_to_details (q : string) (w : world) (sd : value)
    (ids : list string) :
  answers w (search_request q) sd ->
  has_idlist sd ids ->
  ids <> [] ->
  fetch_papers q w
  = fetch_details (JArr (map JStr ids)) (with_request (search_request q) w).
Proof.
  intros Hans Hids Hne.
  rewrite (fetch_papers_after_search q w sd Hans).
  rewrite (has_idlist_value _ _ Hids).
  destruct ids; [contradiction|reflexivity].
Qed.

(** X4: with identifiers found, a summary lookup that fails makes
    [fetch_papers] raise after the two requests, and no record is
    returned: a failed connection, an error status, a body that is no
    JSON, a body that is no mapping, a result entry that is no
    mapping. *)
Theorem fetch_papers_summary_failures (q : string) (w : world) (sd : value)
    (ids : list string) :
  answers w (search_request q) sd ->
  has_idlist sd ids ->
  ids <> [] ->
  let w2 := with_request (details_request ids)
              (with_request (search_request q) w) in
  (net w (details_request ids) = None ->
   fetch_papers q w = (Raise ConnectionError, w2))
  /\ (forall st bd,
         net w (details_request ids) = Some (Response st bd) ->
         is_error_status st = true ->
         fetch_papers q w = (Raise (HTTPError st), w2))
  /\ (forall st,
         net w (details_request ids) = Some (Response st None) ->
         is_error_status st = false ->
         fetch_papers q w = (Raise JSONDecodeError, w2))
  /\ (forall dd,
         answers w (details_request ids) dd ->
         (forall d, dd <> JObj d) ->
         fetch_papers q w = (Raise AttributeError, w2))
  /\ (forall d v,
         answers w (details_request ids) (JObj d) ->
         dict_lookup "result" d = Some v ->
         (forall r, v <> JObj r) ->
         fetch_papers q w = (Raise AttributeError, w2)).
Proof.
  intros Hans Hids Hne w2.
  rewrite (fetch_papers_to_details q w sd ids Hans Hids Hne).
  assert (Hfirst : exists id ids', ids = id :: ids')
    by (destruct ids as [|id ids']; [contradiction|eauto]).
  unfold fetch_details, bind, requests_get, raise_for_status, response_json,
    lift, ret, raise.
  rewrite py_join_strs. cbn [net with_request py_iter].
  unfold details_request in *.
  split; [|split; [|split; [|split]]].
  - intros Hnet. now rewrite Hnet.
  - intros st bd Hnet Hst. rewrite Hnet. cbn [status_code]. now rewrite Hst.
  - intros st Hnet Hst. rewrite Hnet. cbn [status_code body].
    now rewrite Hst.
  - intros dd (st & Hnet & Hst) Hdd. rewrite Hnet. cbn [status_code body].
    rewrite Hst. destruct Hfirst as (id & ids' & ->).
    destruct dd; try reflexivity. now destruct (Hdd kvs).
  - intros d v (st & Hnet & Hst) Hv Hr. rewrite Hnet.
    cbn [status_code body]. rewrite Hst.
    destruct Hfirst as (id & ids' & ->).
    cbn [map build_papers]. unfold build_paper. simpl. unfold dict_get.
    rewrite Hv. destruct v; try reflexivity. now destruct (Hr kvs).
Qed.

(** With a mapping as result entry, the loop body fails in one way
    only: the entry of the identifier is no mapping. *)
Lemma build_paper_str_cases (d r : dict) (id : string) :
  dict_get d "result" (JObj []) = JObj r ->
  (exists s, dict_get r id (JObj []) = JObj s
             /\ build_paper (JObj d) (JStr id)
                = Ok (paper_record (JStr id) (dict_get s "title" (JStr ""))
                        (dict_get s "pubdate" (JStr ""))))
  \/ ((forall s, dict_get r id (JObj []) <> JObj s)
      /\ build_paper (JObj d) (JStr id) = Raise AttributeError).
Proof.
  intros Hr. unfold build_paper. simpl. rewrite Hr. simpl.
  destruct (dict_get r id (JObj [])) as [| | | | | |s] eqn:E;
    try (right; split; [discriminate|reflexivity]).
  left. exists s. split; reflexivity.
Qed.

Lemma build_papers_bad_entry (d r : dict) (ids : list string) :
  dict_get d "result" (JObj []) = JObj r ->
  (exists id, In id ids /\ forall s, dict_get r id (JObj []) <> JObj s) ->
  forall acc,
    build_papers (JObj d) (map JStr ids) acc = Raise AttributeError.
Proof.
  intros Hr. induction ids as [|id ids IH]; intros (bad & Hin & Hbad) acc;
    [destruct Hin|].
  cbn [map build_papers].
  destruct (build_paper_str_cases d r id Hr) as [(s & Hs & ->)|(_ & ->)];
    [|reflexivity].
  apply IH. destruct Hin as [<-|Hin]; [now destruct (Hbad s)|eauto].
Qed.

(** X5: when the summary entry of one identifier is no mapping,
    [fetch_papers] raises an attribute error and returns no record at
    all, also for the identifiers whose entries are fine. *)
Theorem fetch_papers_bad_summary_entry (q : string) (w : world) (sd : value)
    (ids : list string) (d r : dict) :
  answers w (search_request q) sd ->
  has_idlist sd ids ->
  answers w (details_request ids) (JObj d) ->
  dict_get d "result" (JObj []) = JObj r ->
  (exists id v, In id ids /\ dict_lookup id r = Some v
                /\ forall s, v <> JObj s) ->
  fetch_papers q w
  = (Raise AttributeError,
     with_request (details_request ids)
       (with_request (search_request q) w)).
Proof.
  intros Hans Hids Hd Hr (id & v & Hin & Hv & Hbad).
  assert (Hne : ids <> []) by (intros ->; destruct Hin).
  rewrite (fetch_papers_to_details q w sd ids Hans Hids Hne).
  rewrite (fetch_details_answered _ (join "," ids) (map JStr ids) _ (JObj d));
    [|apply py_join_strs|reflexivity|exact Hd].
  rewrite (build_papers_bad_entry d r ids Hr); [reflexivity|].
  exists id. split; [exact Hin|]. unfold dict_get. now rewrite Hv.
Qed.

(** X6: identifiers the summary response knows nothing about still get
    their records, with empty Title and Publication Date. *)
Theorem fetch_papers_unknown_identifiers (q : string) (w : world) (sd : value)
    (ids : list string) (d r : dict) :
  answers w (search_request q) sd ->
  has_idlist sd ids ->
  ids <> [] ->
  answers w (details_request ids) (JObj d) ->
  dict_get d "result" (JObj []) = JObj r ->
  (forall id, In id ids -> dict_lookup id r = None) ->
  fetch_papers q w
  = (Ok (map (fun id => paper_record (JStr id) (JStr "") (JStr "")) ids),
     with_request (details_request ids)
       (with_request (search_request q) w)).
Proof.
  intros Hans Hids Hne Hd Hr Hnone.
  rewrite (fetch_papers_to_details q w sd ids Hans Hids Hne).
  rewrite (fetch_details_answered _ (join "," ids) (map JStr ids) _ (JObj d));
    [|apply py_join_strs|reflexivity|exact Hd].
  rewrite (build_papers_complete _ _ []
             (map (fun id => paper_record (JStr id) (JStr "") (JStr "")) ids));
    [reflexivity|].
  clear - Hr Hnone. induction ids as [|id ids IH]; [constructor|].
  cbn [map]. constructor.
  - apply build_paper_str. exists d, r, []. split; [reflexivity|].
    split; [exact Hr|]. split; [|reflexivity].
    unfold dict_get. now rewrite (Hnone id (or_introl eq_refl)).
  - apply IH. intros id' Hin. apply Hnone. now right.
Qed.

(** X7: [fetch_papers] does not check that the identifier value is a
    list. A non-empty string is iterated character by character (code
    point by code point): the summary lookup asks for the comma-joined
    characters, and a normal return has one record per character. *)
Theorem fetch_papers_string_idlist (q : string) (w w' : world) (sd : value)
    (s : string) (papers : list dict) :
  answers w (search_request q) sd ->
  holds_idlist sd (JStr s) ->
  s <> "" ->
  fetch_papers q w = (Ok papers, w') ->
  w' = with_request (details_request (chars s))
         (with_request (search_request q) w)
  /\ List.length papers = List.length (chars s)
  /\ Forall2 (fun c p => dict_lookup "PubmedID" p = Some (JStr c))
       (chars s) papers.
Proof.
  intros Hans Hids Hne H.
  rewrite (fetch_papers_after_search q w sd Hans) in H.
  rewrite (holds_idlist_value _ _ Hids) in H.
  assert (Ht : truthy (JStr s) = true).
  { simpl. destruct (String.eqb_spec s ""); [contradiction|reflexivity]. }
  rewrite Ht in H.
  assert (Hj : py_join "," (JStr s) = Ok (join "," (chars s))).
  { unfold py_join. cbn [py_iter]. now rewrite all_strs_map_JStr. }
  unfold fetch_details, bind, requests_get, raise_for_status, response_json,
    lift, ret, raise in H.
  rewrite Hj in H. cbn [net with_request py_iter] in H.
  destruct (net w (Request details_url (details_params (join "," (chars s)))))
    as [[st bd]|]; cbn [status_code body] in H; [|discriminate].
  destruct (is_error_status st); [discriminate|].
  destruct bd as [dd|]; [|discriminate].
  destruct (build_papers dd (map JStr (chars s)) []) as [ps|] eqn:Eb;
    [|discriminate].
  injection H as <- <-.
  apply build_papers_inv in Eb as (new & -> & Hall). simpl.
  split; [reflexivity|].
  assert (Hall' : Forall2 (fun c p => dict_lookup "PubmedID" p
                                      = Some (JStr c)) (chars s) new).
  { clear - Hall. remember (map JStr (chars s)) as items eqn:E.
    revert E. generalize (chars s) as cs.
    induction Hall as [|v p items new Hp _ IH]; intros cs E.
    - destruct cs; [constructor|discriminate].
    - destruct cs as [|c cs]; [discriminate|]. injection E as -> ->.
      constructor; [|now apply IH].
      apply build_paper_shape in Hp as (t & dt & ->). reflexivity. }
  split; [|exact Hall'].
  symmetry. eapply Forall2_length. exact Hall'.
Qed.



(** On a path that cannot be opened for writing, [save_to_csv] raises
    and leaves the whole state, the file included, as it was. *)
Lemma save_to_csv_unwritable (py_str : value -> string)
    (encodable : string -> bool)
    (papers : list dict) (filename : string) (w : world) :
  writable w filename = false ->
  save_to_csv py_str encodable papers filename w = (Raise OSError, w).
Proof.
  intros Hw. unfold save_to_csv, bind, open_w. now rewrite Hw.
Qed.

Lemma same_but_file_refl (path : string) (w : world) :
  same_but_file path w w.
Proof. repeat split. Qed.

Lemma same_but_file_write (path : string) (w : world) (content : string) :
  same_but_file path w (with_files (<[path := content]> (files w)) w).
Proof.
  repeat split. intros other Hne. cbn [files with_files].
  now apply lookup_insert_ne.
Qed.

Lemma save_to_csv_same_but_file (py_str : value -> string)
    (encodable : string -> bool)
    (papers : list dict) (filename : string) (w : world) :
  same_but_file filename w
    (snd (save_to_csv py_str encodable papers filename w)).
Proof.
  destruct (writable w filename) eqn:Hw.
  - rewrite (save_to_csv_written py_str encodable papers filename w Hw).
    destruct (encodable header_line); apply same_but_file_write.
  - rewrite (save_to_csv_unwritable py_str encodable papers filename w Hw).
    apply same_but_file_refl.
Qed.

(** X10: whatever its input and outcome, [save_to_csv] touches no file
    but the one it is given, issues no request, prints nothing and logs
    nothing. *)
Theorem save_to_csv_touches_one_file (py_str : value -> string)
    (encodable : string -> bool)
    (papers : list dict) (filename : string) (w : world) :
  let w' := snd (save_to_csv py_str encodable papers filename w) in
  (forall other, other <> filename -> files w' !! other = files w !! other)
  /\ sent w' = sent w
  /\ stdout w' = stdout w
  /\ log_stream w' = log_stream w.
Proof.
  destruct (save_to_csv_same_but_file py_str encodable papers filename w)
    as (_ & _ & Hs & _ & _ & Hl & Ho & Hf).
  simpl. auto.
Qed.

(** X11: saving to a path replaces what an earlier save left there,
    however that earlier save ended: the later save ends the same way
    and leaves the same files as if the earlier one had not
    happened. *)
Theorem save_to_csv_overwrites_earlier_save (py_str : value -> string)
    (encodable : string -> bool)
    (earlier papers : list dict) (filename : string) (w : world) :
  let w1 := snd (save_to_csv py_str encodable earlier filename w) in
  fst (save_to_csv py_str encodable papers filename w1)
  = fst (save_to_csv py_str encodable papers filename w)
  /\ files (snd (save_to_csv py_str encodable papers filename w1))
     = files (snd (save_to_csv py_str encodable papers filename w)).
Proof.
  intros w1.
  destruct (writable w filename) eqn:Hw.
  - destruct (save_to_csv_same_but_file py_str encodable earlier filename w)
      as (_ & Hwr & _ & _ & _ & _ & _ & Hf).
    fold w1 in Hwr, Hf.
    assert (Hw1 : writable w1 filename = true) by now rewrite Hwr.
    rewrite (save_to_csv_written py_str encodable papers filename w1 Hw1).
    rewrite (save_to_csv_written py_str encodable papers filename w Hw).
    assert (Hins : forall content,
               <[filename := content]> (files w1)
               = <[filename := content]> (files w)).
    { intros content. apply map_eq. intros g.
      destruct (decide (g = filename)) as [->|Hne].
      - now rewrite !lookup_insert_eq.
      - rewrite !lookup_insert_ne by congruence. now apply Hf. }
    destruct (encodable header_line); cbn [fst snd files with_files];
      now rewrite Hins.
  - subst w1.
    now rewrite (save_to_csv_unwritable py_str encodable earlier filename w Hw).
Qed.

(** X18: a record whose line the codec of the locale cannot encode
    stops [save_to_csv] with an encoding error; on a writable path, the
    header line and the lines of the records before it being encodable,
    the file is left with exactly these lines, and the later records
    are not written. *)
Theorem save_to_csv_unencodable_truncates (py_str : value -> string)
    (encodable : string -> bool)
    (good : list dict) (bad : dict) (rest : list dict) (filename : string)
    (w : world) :
  writable w filename = true ->
  Forall keys_allowed good ->
  encodable header_line = true ->
  Forall (fun p => encodable (writerow (row_texts py_str p)) = true) good ->
  keys_allowed bad ->
  encodable (writerow (row_texts py_str bad)) = false ->
  exists w',
    save_to_csv py_str encodable (good ++ bad :: rest) filename w
    = (Raise UnicodeEncodeError, w')
    /\ files w'
       = <[filename := header_line
                       ++ rows_text (map (row_texts py_str) good)]> (files w).
Proof.
  intros Hw Hall Hhead Henc Hbad Hno. eexists. split.
  { eapply save_to_csv_rows; [exact Hw|exact Hhead|].
    apply rows_written_stops; [exact Hall|exact Henc|]. right. auto. }
  reflexivity.
Qed.

Lemma logger_log_enabled (level : Z) (fmt : string) (arg : log_arg)
    (w : world) :
  info_enabled w -> INFO <= level ->
  logger_log level fmt arg w = (Ok tt, with_log (LogRecord level fmt arg) w).
Proof.
  unfold info_enabled, logger_log. intros Hw Hl.
  destruct (Z.leb_spec (effective_level w) level); [reflexivity|lia].
Qed.

Lemma for_each_print (ds : list dict) :
  forall w, for_each ds print w = (Ok tt, with_prints ds w).
Proof.
  induction ds as [|d ds IH]; intros w.
  - simpl. unfold ret, with_prints. rewrite app_nil_r. now destruct w.
  - cbn [for_each]. unfold bind, print at 1. rewrite IH.
    unfold with_prints, with_print. simpl. now rewrite <- app_assoc.
Qed.

Lemma info_enabled_levels (w w' : world) :
  root_level w' = root_level w -> logger_level w' = logger_level w ->
  info_enabled w -> info_enabled w'.
Proof.
  unfold info_enabled, effective_level. intros -> ->. auto.
Qed.

Lemma fetch_papers_info_enabled (q : string) (w : world) :
  info_enabled w -> info_enabled (snd (fetch_papers q w)).
Proof.
  intros Hw. destruct (fetch_papers_snd q w) as [->|(joined & ->)];
    exact Hw.
Qed.

(** Every run ends in one of the five ways of [outcome], with status
    0. *)
Lemma script_outcome (py_str : value -> string)
    (encodable : string -> bool) (a : args)
    (network : request -> option response) (can_write : string -> bool)
    (disk : gmap string string) :
  let w1 := with_log (fetching_record (query a))
              (configured a (initial_world network can_write disk)) in
  exists w',
    script py_str encodable a network can_write disk = (0, w')
    /\ outcome py_str encodable a (snd (fetch_papers (query a) w1))
         (fst (fetch_papers (query a) w1)) w'.
Proof.
  intros w1. rewrite script_unfold.
  pose proof (configured_info_enabled a network can_write disk) as Hen.
  unfold main_try, bind, logger_info.
  rewrite (logger_log_enabled _ _ _ _ Hen) by reflexivity.
  fold (fetching_record (query a)). fold w1.
  assert (Hen1 : info_enabled w1) by exact Hen.
  pose proof (fetch_papers_info_enabled (query a) w1 Hen1) as Hen2.
  destruct (fetch_papers (query a) w1) as [[papers|e] w2]; cbn [fst snd] in *.
  - destruct papers as [|p papers].
    + rewrite (logger_log_enabled _ _ _ _ Hen2) by reflexivity.
      eexists. split; [reflexivity|]. now apply nothing_found.
    + destruct (file a) as [f|] eqn:Ef.
      * destruct (String.eqb_spec f "") as [->|Hf]; cbn [negb].
        { rewrite for_each_print. eexists. split; [reflexivity|].
          eapply printed; eauto; discriminate. }
        pose proof (save_to_csv_same_but_file py_str encodable
                      (p :: papers) f w2)
          as (_ & _ & _ & Hr & Hl & _).
        destruct (save_to_csv py_str encodable (p :: papers) f w2)
          as [[[]|e] w3] eqn:Es;
          cbn [snd] in *.
        { rewrite (logger_log_enabled _ _ _ w3) by
            (try reflexivity; eapply info_enabled_levels; eauto).
          eexists. split; [reflexivity|].
          eapply saved; eauto; discriminate. }
        { unfold logger_error.
          rewrite (logger_log_enabled _ _ _ w3) by
            (try (unfold INFO, ERROR; lia);
             eapply info_enabled_levels; eauto).
          eexists. split; [reflexivity|].
          eapply save_failed; eauto; discriminate. }
      * rewrite for_each_print. eexists. split; [reflexivity|].
        eapply printed; eauto; discriminate.
  - unfold logger_error.
    rewrite (logger_log_enabled _ _ _ _ Hen2) by (unfold INFO, ERROR; lia).
    eexists. split; [reflexivity|]. now eapply fetch_failed.
Qed.

(** The state [fetch_papers] leaves, field by field. *)
Lemma fetch_papers_state (q : string) (w : world) :
  files (snd (fetch_papers q w)) = files w
  /\ stdout (snd (fetch_papers q w)) = stdout w
  /\ log_stream (snd (fetch_papers q w)) = log_stream w
  /\ writable (snd (fetch_papers q w)) = writable w
  /\ (sent (snd (fetch_papers q w)) = (sent w ++ [search_request q])%list
      \/ exists joined,
           sent (snd (fetch_papers q w))
           = (sent w ++ [search_request q;
                         Request details_url (details_params joined)])%list).
Proof.
  destruct (fetch_papers_snd q w) as [->|(joined & ->)].
  - repeat split. now left.
  - repeat split. right. exists joined. simpl. now rewrite <- app_assoc.
Qed.

(** What [fetch_papers] returns in a run is what it returns in the
    initial state. *)
Lemma fetch_papers_in_run (a : args) (network : request -> option response)
    (can_write : string -> bool) (disk : gmap string string) :
  fst (fetch_papers (query a)
         (with_log (fetching_record (query a))
            (configured a (initial_world network can_write disk))))
  = fst (fetch_papers (query a) (initial_world network can_write disk)).
Proof.
  apply fetch_papers_net_only. unfold configured. now destruct (debug a).
Qed.

Ltac run_outcome py_str encodable a network can_write disk :=
  let w' := fresh "w'" in
  let Hs := fresh "Hs" in
  let Hout := fresh "Hout" in
  let F := fresh "F" in
  destruct (script_outcome py_str encodable a network can_write disk)
    as (w' & Hs & Hout);
  rewrite fetch_papers_in_run in Hout;
  pose proof (fetch_papers_state (query a)
                (with_log (fetching_record (query a))
                   (configured a (initial_world network can_write disk))))
    as F;
  exists w'; split; [exact Hs|].

(** X12: whatever makes [fetch_papers] raise, the script logs the error
    after the fetching record, prints nothing, leaves every file as it
    was and ends with status 0. *)
Theorem script_fetch_failure (py_str : value -> string)
    (encodable : string -> bool)
    (q : string) (f : option string) (dbg : bool)
    (network : request -> option response) (can_write : string -> bool)
    (disk : gmap string string) (e : exn) :
  fst (fetch_papers q (initial_world network can_write disk)) = Raise e ->
  exists w',
    script py_str encodable (Args q f dbg) network can_write disk = (0, w')
    /\ log_stream w' = [fetching_record q; error_record e]
    /\ stdout w' = []
    /\ files w' = disk.
Proof.
  intros He. run_outcome py_str encodable (Args q f dbg) network can_write disk.
  cbn [query] in *. rewrite He in Hout.
  destruct F as (Hf & Ho & Hl & _ & _).
  destruct Hout as [e' [= <-] ->| | | |]; try discriminate.
  cbn [log_stream stdout files with_log]. rewrite Hf, Ho, Hl.
  destruct dbg; repeat split.
Qed.


Lemma fetched_are_paper_records (q : string) (w : world)
    (papers : list dict) :
  fst (fetch_papers q w) = Ok papers -> Forall is_paper_record papers.
Proof.
  intros H.
  assert (E : fetch_papers q w = (Ok papers, snd (fetch_papers q w)))
    by (rewrite <- H; apply surjective_pairing).
  apply fetch_papers_literals in E. eapply List.Forall_impl; [|exact E].
  intros p (id & t & d & ->). unfold is_paper_record. reflexivity.
Qed.


(** X15: when the path of the file argument cannot be opened for writing,
    the script logs the error after the fetching record, prints
    nothing, leaves every file as it was and still ends with status
    0. *)
Theorem script_unwritable_path (py_str : value -> string)
    (encodable : string -> bool)
    (q f : string) (dbg : bool)
    (network : request -> option response) (can_write : string -> bool)
    (disk : gmap string string) (papers : list dict) :
  fst (fetch_papers q (initial_world network can_write disk)) = Ok papers ->
  papers <> [] ->
  f <> "" ->
  can_write f = false ->
  exists w',
    script py_str encodable (Args q (Some f) dbg) network can_write disk
    = (0, w')
    /\ log_stream w' = [fetching_record q; error_record OSError]
    /\ stdout w' = []
    /\ files w' = disk.
Proof.
  intros Hp Hne Hf Hw.
  run_outcome py_str encodable (Args q (Some f) dbg) network can_write disk.
  cbn [query] in *. rewrite Hp in Hout.
  destruct F as (Hfi & Ho & Hl & Hwr & _).
  assert (Hsave : forall w2,
             writable w2 = can_write ->
             save_to_csv py_str encodable papers f w2 = (Raise OSError, w2)).
  { intros w2 E. apply save_to_csv_unwritable. now rewrite E. }
  destruct Hout as [e' He _|He _|ps [= <-] _ Ef _
                    |ps f' w3 [= <-] _ [= <-] _ Es _
                    |ps f' w3 e' [= <-] _ [= <-] _ Es ->];
    try discriminate.
  - injection He as ->. congruence.
  - cbn [file] in Ef. destruct Ef as [Ef|[= Ef]]; [discriminate|].
    now subst f.
  - rewrite Hsave in Es by (rewrite Hwr; now destruct dbg). discriminate.
  - rewrite Hsave in Es by (rewrite Hwr; now destruct dbg).
    injection Es as <- <-.
    cbn [log_stream stdout files with_log]. rewrite Hfi, Ho, Hl.
    destruct dbg; repeat split.
Qed.

(** X19: when the codec of the locale cannot encode the line of a
    fetched record, the path of the file argument being writable and
    the header line and the lines of the records before it encodable,
    the script logs the encoding error after the fetching record, prints
    nothing, leaves the file with the header line and the lines of the
    records before that one, and still ends with status 0. *)
Theorem script_unencodable_record (py_str : value -> string)
    (encodable : string -> bool)
    (q f : string) (dbg : bool)
    (network : request -> option response) (can_write : string -> bool)
    (disk : gmap string string)
    (good : list dict) (bad : dict) (rest : list dict) :
  fst (fetch_papers q (initial_world network can_write disk))
  = Ok (good ++ bad :: rest)%list ->
  f <> "" ->
  can_write f = true ->
  encodable header_line = true ->
  Forall (fun p => encodable (writerow (row_texts py_str p)) = true) good ->
  encodable (writerow (row_texts py_str bad)) = false ->
  exists w',
    script py_str encodable (Args q (Some f) dbg) network can_write disk
    = (0, w')
    /\ log_stream w'
       = [fetching_record q; error_record UnicodeEncodeError]
    /\ stdout w' = []
    /\ files w'
       = <[f := header_line ++ rows_text (map (row_texts py_str) good)]>
           disk.
Proof.
  intros Hp Hf Hw Hhead Henc Hno.
  pose proof (fetched_are_paper_records _ _ _ Hp) as Hrec.
  apply Forall_app in Hrec as (Hgood & Hrest).
  apply Forall_cons in Hrest as (Hbad & _).
  run_outcome py_str encodable (Args q (Some f) dbg) network can_write disk.
  cbn [query] in *. rewrite Hp in Hout.
  destruct F as (Hfi & Ho & Hl & Hwr & _).
  assert (Hsave : forall w2,
             writable w2 = can_write ->
             save_to_csv py_str encodable (good ++ bad :: rest) f w2
             = (Raise UnicodeEncodeError,
                with_files
                  (<[f := header_line
                          ++ rows_text (map (row_texts py_str) good)]>
                     (files w2)) w2)).
  { intros w2 E.
    eapply save_to_csv_rows; [now rewrite E|exact Hhead|].
    apply rows_written_stops; [|exact Henc|].
    - eapply List.Forall_impl; [|exact Hgood].
      exact paper_record_keys_allowed.
    - right. split; [now apply paper_record_keys_allowed|]. auto. }
  destruct Hout as [e' He _|He _|ps [= <-] _ Ef _
                    |ps f' w3 [= <-] _ [= <-] _ Es _
                    |ps f' w3 e' [= <-] _ [= <-] _ Es ->];
    try discriminate.
  - injection He as He. now destruct good.
  - cbn [file] in Ef. destruct Ef as [Ef|[= Ef]]; [discriminate|].
    now subst f.
  - rewrite Hsave in Es by (rewrite Hwr; now destruct dbg). discriminate.
  - rewrite Hsave in Es by (rewrite Hwr; now destruct dbg).
    injection Es as <- <-.
    cbn [log_stream stdout files with_log with_files].
    rewrite Hfi, Ho, Hl.
    destruct dbg; repeat split.
Qed.

(** X16: no run both prints records and changes a file; a run that
    prints has no usable file argument, and the only file a run can
    change is the one its file argument names. *)
Theorem script_output_exclusive (py_str : value -> string)
    (encodable : string -> bool) (a : args)
    (network : request -> option response) (can_write : string -> bool)
    (disk : gmap string string) :
  exists w',
    script py_str encodable a network can_write disk = (0, w')
    /\ (stdout w' = [] \/ files w' = disk)
    /\ (stdout w' <> [] -> file a = None \/ file a = Some "")
    /\ (forall other,
           file a <> Some other -> files w' !! other = disk !! other).
Proof.
  run_outcome py_str encodable a network can_write disk.
  destruct F as (Hfi & Ho & _ & _ & _).
  assert (Hd : files (configured a (initial_world network can_write disk))
               = disk) by (unfold configured; now destruct (debug a)).
  assert (Hso : stdout (configured a (initial_world network can_write disk))
                = []) by (unfold configured; now destruct (debug a)).
  cbn [files stdout with_log] in Hfi, Ho. rewrite Hd in Hfi.
  rewrite Hso in Ho.
  destruct Hout as [e' _ ->|_ ->|ps _ _ Ef ->
                    |ps f' w3 _ _ Ef Hf' Es ->
                    |ps f' w3 e' _ _ Ef Hf' Es ->].
  - cbn [stdout files with_log]. rewrite Hfi, Ho.
    split; [now left|]. split; [now intros []|reflexivity].
  - cbn [stdout files with_log]. rewrite Hfi, Ho.
    split; [now left|]. split; [now intros []|reflexivity].
  - cbn [stdout files with_prints]. rewrite Hfi.
    split; [now right|]. split; [auto|reflexivity].
  - pose proof (save_to_csv_same_but_file py_str encodable ps f'
                  (snd (fetch_papers (query a)
                          (with_log (fetching_record (query a))
                             (configured a
                                (initial_world network can_write disk))))))
      as (_ & _ & _ & _ & _ & _ & Hso3 & Hf3).
    rewrite Es in Hso3, Hf3. cbn [snd] in Hso3, Hf3.
    cbn [stdout files with_log]. rewrite Hso3, Ho.
    split; [now left|]. split; [now intros []|].
    intros other Hne. rewrite Hf3, Hfi; [reflexivity|].
    intros ->. now apply Hne.
  - pose proof (save_to_csv_same_but_file py_str encodable ps f'
                  (snd (fetch_papers (query a)
                          (with_log (fetching_record (query a))
                             (configured a
                                (initial_world network can_write disk))))))
      as (_ & _ & _ & _ & _ & _ & Hso3 & Hf3).
    rewrite Es in Hso3, Hf3. cbn [snd] in Hso3, Hf3.
    cbn [stdout files with_log]. rewrite Hso3, Ho.
    split; [now left|]. split; [now intros []|].
    intros other Hne. rewrite Hf3, Hfi; [reflexivity|].
    intros ->. now apply Hne.
Qed.

(** X17: every run logs the fetching record first and at most one record
    after it, and issues the search request first and at most one
    request after it, the summary request. *)
Theorem script_trace_shape (py_str : value -> string)
    (encodable : string -> bool) (a : args)
    (network : request -> option response) (can_write : string -> bool)
    (disk : gmap string string) :
  exists w',
    script py_str encodable a network can_write disk = (0, w')
    /\ (exists more,
           log_stream w' = fetching_record (query a) :: more
           /\ (List.length more <= 1)%nat)
    /\ (sent w' = [search_request (query a)]
        \/ exists joined,
             sent w' = [search_request (query a);
                        Request details_url (details_params joined)]).
Proof.
  run_outcome py_str encodable a network can_write disk.
  destruct F as (_ & _ & Hl & _ & Hsent).
  assert (Hl0 : log_stream (configured a (initial_world network can_write disk))
                = []) by (unfold configured; now destruct (debug a)).
  assert (Hs0 : sent (configured a (initial_world network can_write disk))
                = []) by (unfold configured; now destruct (debug a)).
  cbn [log_stream sent with_log] in Hl, Hsent. rewrite Hl0 in Hl.
  rewrite Hs0 in Hsent. cbn [app] in Hl, Hsent.
  assert (Hsave : forall ps f' r3 w3,
             save_to_csv py_str encodable ps f'
               (snd (fetch_papers (query a)
                       (with_log (fetching_record (query a))
                          (configured a
                             (initial_world network can_write disk)))))
             = (r3, w3) ->
             log_stream w3 = [fetching_record (query a)]
             /\ sent w3
                = sent (snd (fetch_papers (query a)
                               (with_log (fetching_record (query a))
                                  (configured a
                                     (initial_world network can_write
                                        disk)))))).
  { intros ps f' r3 w3 Es.
    pose proof (save_to_csv_same_but_file py_str encodable ps f'
                  (snd (fetch_papers (query a)
                          (with_log (fetching_record (query a))
                             (configured a
                                (initial_world network can_write disk))))))
      as (_ & _ & Hs3 & _ & _ & Hl3 & _).
    rewrite Es in Hs3, Hl3. cbn [snd] in Hs3, Hl3.
    now rewrite Hl3, Hl, Hs3. }
  destruct Hout as [e' _ ->|_ ->|ps _ _ Ef ->
                    |ps f' w3 _ _ Ef Hf' Es ->
                    |ps f' w3 e' _ _ Ef Hf' Es ->].
  - cbn [log_stream sent with_log]. rewrite Hl.
    split; [eexists; split; [reflexivity|simpl; lia]|exact Hsent].
  - cbn [log_stream sent with_log]. rewrite Hl.
    split; [eexists; split; [reflexivity|simpl; lia]|exact Hsent].
  - cbn [log_stream sent with_prints]. rewrite Hl.
    split; [exists []; split; [reflexivity|simpl; lia]|exact Hsent].
  - destruct (Hsave _ _ _ _ Es) as (Hl3 & Hs3).
    cbn [log_stream sent with_log]. rewrite Hl3, Hs3.
    split; [eexists; split; [reflexivity|simpl; lia]|exact Hsent].
  - destruct (Hsave _ _ _ _ Es) as (Hl3 & Hs3).
    cbn [log_stream sent with_log]. rewrite Hl3, Hs3.
    split; [eexists; split; [reflexivity|simpl; lia]|exact Hsent].
Qed.

(** * More sample runs *)

Lemma fetch_papers_search_failures_witness :
  net (initial_world offline_net all_writable ∅) (search_request "cancer")
  = None
  /\ fetch_papers "cancer" (initial_world offline_net all_writable ∅)
     = (Raise ConnectionError,
        with_request (search_request "cancer")
          (initial_world offline_net all_writable ∅)).
Proof.
  split; [reflexivity|].
  exact (proj1 (fetch_papers_search_failures "cancer"
                  (initial_world offline_net all_writable ∅)) eq_refl).
Defined.

Example mixed_ids_answers :
  answers (initial_world mixed_ids_net all_writable ∅)
    (search_request "cancer") mixed_ids_search.
Proof. exists 200. split; reflexivity. Qed.

Lemma fetch_papers_rejects_non_string_identifier_witness :
  answers (initial_world mixed_ids_net all_writable ∅)
    (search_request "cancer") mixed_ids_search
  /\ holds_idlist mixed_ids_search (JArr [JStr "1"; JInt 2])
  /\ fetch_papers "cancer" (initial_world mixed_ids_net all_writable ∅)
     = (Raise TypeError,
        with_request (search_request "cancer")
          (initial_world mixed_ids_net all_writable ∅)).
Proof.
  assert (Hh : holds_idlist mixed_ids_search (JArr [JStr "1"; JInt 2]))
    by (eexists _, _; repeat split).
  split; [exact mixed_ids_answers|]. split; [exact Hh|].
  apply (fetch_papers_rejects_non_string_identifier "cancer" _
           mixed_ids_search [JStr "1"; JInt 2] mixed_ids_answers Hh).
  exists (JInt 2). split; [right; left; reflexivity|discriminate].
Defined.

Example summary_down_answers :
  answers (initial_world summary_down_net all_writable ∅)
    (search_request "cancer") sample_search.
Proof. exists 200. split; reflexivity. Qed.

Lemma fetch_papers_summary_failures_witness :
  answers (initial_world summary_down_net all_writable ∅)
    (search_request "cancer") sample_search
  /\ has_idlist sample_search ["111"; "222"]
  /\ fetch_papers "cancer" (initial_world summary_down_net all_writable ∅)
     = (Raise (HTTPError 500),
        with_request (details_request ["111"; "222"])
          (with_request (search_request "cancer")
             (initial_world summary_down_net all_writable ∅))).
Proof.
  split; [exact summary_down_answers|]. split; [exact sample_has_idlist|].
  assert (Hne : ["111"; "222"] <> ([] : list string)) by discriminate.
  exact (proj1 (proj2 (fetch_papers_summary_failures "cancer" _
                         sample_search ["111"; "222"] summary_down_answers
                         sample_has_idlist Hne))
           500 None eq_refl eq_refl).
Defined.

Example bad_entry_answers :
  answers (initial_world bad_entry_net all_writable ∅)
    (search_request "cancer") sample_search.
Proof. exists 200. split; reflexivity. Qed.

Lemma fetch_papers_bad_summary_entry_witness :
  fetch_papers "cancer" (initial_world bad_entry_net all_writable ∅)
  = (Raise AttributeError,
     with_request (details_request ["111"; "222"])
       (with_request (search_request "cancer")
          (initial_world bad_entry_net all_writable ∅))).
Proof.
  apply (fetch_papers_bad_summary_entry "cancer" _ sample_search
           ["111"; "222"] [("result", JObj bad_entry_result)]
           bad_entry_result bad_entry_answers sample_has_idlist).
  - exists 200. split; reflexivity.
  - reflexivity.
  - exists "222", (JStr "oops").
    split; [right; left; reflexivity|]. split; [reflexivity|discriminate].
Defined.

Example no_summary_answers :
  answers (initial_world no_summary_net all_writable ∅)
    (search_request "cancer") sample_search.
Proof. exists 200. split; reflexivity. Qed.

Lemma fetch_papers_unknown_identifiers_witness :
  fetch_papers "cancer" (initial_world no_summary_net all_writable ∅)
  = (Ok [paper_record (JStr "111") (JStr "") (JStr "");
         paper_record (JStr "222") (JStr "") (JStr "")],
     with_request (details_request ["111"; "222"])
       (with_request (search_request "cancer")
          (initial_world no_summary_net all_writable ∅))).
Proof.
  apply (fetch_papers_unknown_identifiers "cancer" _ sample_search
           ["111"; "222"] [] [] no_summary_answers sample_has_idlist).
  - discriminate.
  - exists 200. split; reflexivity.
  - reflexivity.
  - reflexivity.
Defined.

Lemma fetch_papers_string_idlist_witness :
  exists papers w',
    fetch_papers "cancer" (initial_world string_ids_net all_writable ∅)
    = (Ok papers, w')
    /\ List.length papers = 2%nat
    /\ Forall2 (fun c p => dict_lookup "PubmedID" p = Some (JStr c))
         [String "195" (String "169" ""); "1"] papers.
Proof.
  eexists _, _. split; [reflexivity|].
  assert (Ha : answers (initial_world string_ids_net all_writable ∅)
                 (search_request "cancer") string_ids_search)
    by (exists 200; split; reflexivity).
  assert (Hh : holds_idlist string_ids_search
                 (JStr (String "195" (String "169" "1"))))
    by (eexists _, _; repeat split).
  assert (Hne : String "195" (String "169" "1") <> "") by discriminate.
  exact (proj2 (fetch_papers_string_idlist "cancer" _ _ string_ids_search
                  (String "195" (String "169" "1")) _ Ha Hh Hne eq_refl)).
Defined.

Example sample_papers_keys_allowed : Forall keys_allowed sample_papers.
Proof.
  eapply List.Forall_impl; [|exact sample_papers_are_records].
  exact paper_record_keys_allowed.
Qed.







Example accented_record_keys_allowed : keys_allowed accented_record.
Proof.
  apply paper_record_keys_allowed. unfold is_paper_record. reflexivity.
Qed.

Lemma save_to_csv_unencodable_truncates_witness :
  writable sample_world "out.csv" = true
  /\ Forall keys_allowed sample_papers
  /\ sample_codec header_line = true
  /\ Forall (fun p => sample_codec (writerow (row_texts sample_str p)) = true)
       sample_papers
  /\ keys_allowed accented_record
  /\ sample_codec (writerow (row_texts sample_str accented_record)) = false
  /\ exists w',
       save_to_csv sample_str sample_codec
         (sample_papers ++ accented_record :: sample_papers)%list
         "out.csv" sample_world
       = (Raise UnicodeEncodeError, w')
       /\ files w'
          = <["out.csv" := header_line
                           ++ rows_text (map (row_texts sample_str)
                                           sample_papers)]>
              (files sample_world).
Proof.
  split; [reflexivity|]. split; [exact sample_papers_keys_allowed|].
  split; [reflexivity|]. split; [exact sample_lines_encodable|].
  split; [exact accented_record_keys_allowed|]. split; [reflexivity|].
  exact (save_to_csv_unencodable_truncates sample_str sample_codec
           sample_papers accented_record sample_papers "out.csv"
           sample_world eq_refl sample_papers_keys_allowed eq_refl
           sample_lines_encodable accented_record_keys_allowed eq_refl).
Defined.

Lemma script_fetch_failure_witness :
  fst (fetch_papers "cancer" (initial_world offline_net all_writable ∅))
  = Raise ConnectionError
  /\ exists w',
       script sample_str sample_codec (Args "cancer" (Some "out.csv") false)
         offline_net all_writable ∅ = (0, w')
       /\ log_stream w'
          = [fetching_record "cancer"; error_record ConnectionError]
       /\ stdout w' = []
       /\ files w' = ∅.
Proof.
  split; [reflexivity|].
  exact (script_fetch_failure sample_str sample_codec "cancer"
           (Some "out.csv") false offline_net all_writable ∅ ConnectionError
           eq_refl).
Defined.

Example sample_papers_nonempty : sample_papers <> [].
Proof. discriminate. Qed.



Lemma script_unwritable_path_witness :
  fst (fetch_papers "cancer" (initial_world sample_net read_only ∅))
  = Ok sample_papers
  /\ read_only "out.csv" = false
  /\ exists w',
       script sample_str sample_codec (Args "cancer" (Some "out.csv") false)
         sample_net read_only ∅ = (0, w')
       /\ log_stream w' = [fetching_record "cancer"; error_record OSError]
       /\ stdout w' = []
       /\ files w' = ∅.
Proof.
  split; [reflexivity|]. split; [reflexivity|].
  assert (Hf : "out.csv" <> "") by discriminate.
  exact (script_unwritable_path sample_str sample_codec "cancer" "out.csv" false
           sample_net read_only ∅ sample_papers eq_refl
           sample_papers_nonempty Hf eq_refl).
Defined.

Lemma script_unencodable_record_witness :
  fst (fetch_papers "cancer" (initial_world accented_net all_writable ∅))
  = Ok ([paper_record (JStr "111") (JStr "Tumours") (JStr "2020")]
        ++ accented_record :: [])%list
  /\ sample_codec header_line = true
  /\ sample_codec (writerow (row_texts sample_str accented_record)) = false
  /\ exists w',
       script sample_str sample_codec (Args "cancer" (Some "out.csv") false)
         accented_net all_writable ∅ = (0, w')
       /\ log_stream w'
          = [fetching_record "cancer"; error_record UnicodeEncodeError]
       /\ stdout w' = []
       /\ files w'
          = <["out.csv" :=
                header_line
                ++ rows_text
                     (map (row_texts sample_str)
                        [paper_record (JStr "111") (JStr "Tumours")
                           (JStr "2020")])]> ∅.
Proof.
  split; [reflexivity|]. split; [reflexivity|]. split; [reflexivity|].
  assert (Hf : "out.csv" <> "") by discriminate.
  assert (Hgood : Forall
                    (fun p => sample_codec (writerow (row_texts sample_str p))
                              = true)
                    [paper_record (JStr "111") (JStr "Tumours")
                       (JStr "2020")])
    by (constructor; [reflexivity|constructor]).
  exact (script_unencodable_record sample_str sample_codec "cancer" "out.csv"
           false accented_net all_writable ∅
           [paper_record (JStr "111") (JStr "Tumours") (JStr "2020")]
           accented_record [] eq_refl Hf eq_refl eq_refl Hgood eq_refl).
Defined.
